(** * emgrad: device dispatch, operator cache, random factories and
      weight initialisers

    A shallow embedding of

    - [emgrad/_backends.py]            (devices and backend selection),
    - [emgrad/operators.py]            (the [Op] base class and its cache),
    - [emgrad/autograd/random/_base.py] (random tensor factories),
    - [emgrad/nn/init/_dist.py]        (weight initialisers),

    followed by the properties established about them.

    Conventions.  Python exceptions are values of [exn]; a call that may
    raise returns a [result].  Code that touches the array library, the
    random generator or the ambient accelerator threads a [state] and is
    written in the monad [M].  [assert] statements are executed (the
    interpreter does not run with [-O]).  A Python [str] is a [string]
    whose characters are code points below 256; on that range the
    regular expression class [\d] is exactly ['0'..'9']. *)

From Stdlib Require Import ZArith QArith List String Ascii Bool Lia.
From Stdlib Require Import DecimalString DecimalFacts DecimalPos DecimalN.
Import ListNotations.

Open Scope string_scope.
Open Scope Z_scope.

(** ** Python exceptions and results *)

Inductive exn : Type :=
| AssertionError (msg : string)
| ValueError (msg : string)
| TypeError (msg : string)
| AttributeError (msg : string)
| ZeroDivisionError (msg : string)
| UnboundLocalError (msg : string)
| OtherError (msg : string).

Inductive result (A : Type) : Type :=
| Ok (a : A)
| Err (e : exn).

Arguments Ok {A} a.
Arguments Err {A} e.

Definition is_ok {A} (r : result A) : bool :=
  match r with Ok _ => true | Err _ => false end.

Definition rbind {A B} (r : result A) (k : A -> result B) : result B :=
  match r with
  | Ok a => k a
  | Err e => Err e
  end.

(** ** Python builtins *)

(** [repr] of an [int] and of a tuple of [int]s, as the f-string of the
    error message prints them. *)
Definition repr_int (z : Z) : string := NilZero.string_of_int (Z.to_int z).

Fixpoint join_repr (items : list Z) : string :=
  match items with
  | [] => ""
  | [z] => repr_int z
  | z :: rest => repr_int z ++ ", " ++ join_repr rest
  end.

Definition repr_tuple (items : list Z) : string :=
  match items with
  | [z] => "(" ++ repr_int z ++ ",)"
  | _ => "(" ++ join_repr items ++ ")"
  end.

(** ** [emgrad/_backends.py] *)

(** The two array libraries a device can be bound to. *)
Inductive backend : Type := numpy | cupy.

(** What the module finds on the machine and in the interpreter: whether
    [import cupy] succeeded, what [cupy.cuda.is_available()] answers, and
    [sys.get_int_max_str_digits()], the longest digit string [int] agrees
    to convert (4300 by default since CPython 3.11; 0 stands for no
    limit, as it does there and as in the releases before the limit). *)
Record Env : Type := mkEnv {
  cupy_imported : bool;
  cuda_is_available : bool;
  int_max_str_digits : nat
}.

Definition _CPU_BACKEND : backend := numpy.

(** [_CUDA_BACKEND = cupy], or [None] after an [ImportError]. *)
Definition _CUDA_BACKEND (E : Env) : option backend :=
  if cupy_imported E then Some cupy else None.

Definition cuda_available (E : Env) : bool :=
  match _CUDA_BACKEND E with
  | None => false
  | Some _ => cuda_is_available E
  end.

(** *** The device pattern
    [re.match(r"(?P<type>cpu|cuda)(?::(?P<id>\d+))?", s)]:
    the match is anchored at the start of [s] only. *)

Fixpoint strip_prefix (p s : string) : option string :=
  match p with
  | EmptyString => Some s
  | String a p' =>
      match s with
      | EmptyString => None
      | String b s' => if Ascii.eqb a b then strip_prefix p' s' else None
      end
  end.

Definition is_digit (c : ascii) : bool :=
  ((48 <=? nat_of_ascii c) && (nat_of_ascii c <=? 57))%nat.

(** The longest run of digits at the start of [s] (greedy [\d*]). *)
Fixpoint leading_digits (s : string) : string :=
  match s with
  | EmptyString => EmptyString
  | String c s' => if is_digit c then String c (leading_digits s') else EmptyString
  end.

(** The groups of a successful match. *)
Record Match : Type := mkMatch {
  group_type : string;
  group_id : option string
}.

(** [(?::(?P<id>\d+))?] on what follows the type: the group takes part
    when a colon and at least one digit follow, and is skipped otherwise. *)
Definition match_id (rest : string) : option string :=
  match rest with
  | String ":" r =>
      match leading_digits r with
      | EmptyString => None
      | ds => Some ds
      end
  | _ => None
  end.

Definition re_match_device (s : string) : option Match :=
  match strip_prefix "cpu" s with
  | Some rest => Some (mkMatch "cpu" (match_id rest))
  | None =>
      match strip_prefix "cuda" s with
      | Some rest => Some (mkMatch "cuda" (match_id rest))
      | None => None
      end
  end.

(** The value of a string of decimal digits. *)
Definition digit_value (c : ascii) : Z := Z.of_nat (nat_of_ascii c) - 48.

Fixpoint int_acc (acc : Z) (ds : string) : Z :=
  match ds with
  | EmptyString => acc
  | String c ds' => int_acc (10 * acc + digit_value c) ds'
  end.

Definition within_int_limit (E : Env) (ds : string) : bool :=
  (int_max_str_digits E =? 0)%nat
  || (String.length ds <=? int_max_str_digits E)%nat.

Definition int_limit_exceeded (E : Env) (ds : string) : exn :=
  ValueError
    ("Exceeds the limit (" ++ repr_int (Z.of_nat (int_max_str_digits E))
     ++ " digits) for integer string conversion: value has "
     ++ repr_int (Z.of_nat (String.length ds))
     ++ " digits; use sys.set_int_max_str_digits() to increase the limit").

(** [int(ds)] on a string of decimal digits: its value, unless the string
    is longer than the interpreter's limit. *)
Definition int (E : Env) (ds : string) : result Z :=
  if within_int_limit E ds then Ok (int_acc 0 ds)
  else Err (int_limit_exceeded E ds).

Definition _get_type_and_id (E : Env) (device_type : string)
  : result (string * option Z) :=
  match re_match_device device_type with
  | Some m =>
      let device_type := group_type m in
      if (device_type =? "cuda")%string && negb (cuda_available E)
      then Err (AssertionError "CUDA is not available.")
      else
        let device_id := group_id m in
        match device_id with
        | None => Ok (device_type, None)
        | Some ds => rbind (int E ds) (fun i => Ok (device_type, Some i))
        end
  | None => Err (ValueError ("Unknown device: " ++ device_type))
  end.

(** *** class [Device] *)

Record Device : Type := mkDevice {
  dev_type : string;
  dev_id : option Z;
  xp : option backend
}.

(** [Device.__init__] *)
Definition Device_init (E : Env) (dev_type : string) : result Device :=
  rbind (_get_type_and_id E dev_type) (fun '(dev_type, dev_id) =>
  Ok (mkDevice dev_type dev_id
        (if (dev_type =? "cpu")%string then Some _CPU_BACKEND
         else _CUDA_BACKEND E))).

(** Python values a [Device] can be compared with; [VObject] stands for
    an instance of any other class. *)
Inductive pyvalue : Type :=
| VNone
| VBool (b : bool)
| VInt (z : Z)
| VStr (s : string)
| VObject (id : Z)
| VDevice (d : Device).

Definition opt_int_eqb (a b : option Z) : bool :=
  match a, b with
  | None, None => true
  | Some x, Some y => x =? y
  | _, _ => false
  end.

(** [Device.__eq__] *)
Definition Device_eq (self : Device) (other : pyvalue) : bool :=
  match other with
  | VDevice other =>
      (dev_type other =? dev_type self)%string
      && opt_int_eqb (dev_id other) (dev_id self)
  | _ => false
  end.

(** [DeviceLike = Device | str] *)
Inductive DeviceLike : Type :=
| IsDevice (d : Device)
| IsStr (s : string).

(** [device or "cpu"] on an optional string: [None] and the empty string
    are falsy. *)
Definition or_cpu (device : option string) : string :=
  match device with
  | None => "cpu"
  | Some EmptyString => "cpu"
  | Some s => s
  end.

Definition select_device (E : Env) (device : option DeviceLike) : result Device :=
  match device with
  | Some (IsDevice d) => Ok d
  | Some (IsStr s) => Device_init E (or_cpu (Some s))
  | None => Device_init E (or_cpu None)
  end.

Definition parse_device (E : Env) (device : DeviceLike) : result Device :=
  match device with
  | IsDevice d => Ok d
  | IsStr s => Device_init E s
  end.

(** The value of [Device("cpu")]. *)
Definition cpu_device : Device := mkDevice "cpu" None (Some numpy).

(** The descriptors the specification names: [cpu], [cuda] and
    [cuda:<index>] with a decimal index.  This predicate follows the
    specification's wording, not the code. *)
Fixpoint all_digits (s : string) : bool :=
  match s with
  | EmptyString => true
  | String c s' => is_digit c && all_digits s'
  end.

Definition is_index (ds : string) : bool :=
  negb (ds =? "")%string && all_digits ds.

Definition descriptor_form (s : string) : bool :=
  (s =? "cpu")%string || (s =? "cuda")%string
  || match strip_prefix "cuda:" s with
     | Some ds => is_index ds
     | None => false
     end.

(** *** Printing a device *)

(** [str(z)] of an [int]: the decimal digits, unless there are more of
    them than the interpreter's limit allows (the sign is not counted). *)
Definition str_limit_exceeded (E : Env) : exn :=
  ValueError
    ("Exceeds the limit (" ++ repr_int (Z.of_nat (int_max_str_digits E))
     ++ " digits) for integer string conversion; "
     ++ "use sys.set_int_max_str_digits() to increase the limit").

Definition str_int (E : Env) (z : Z) : result string :=
  if within_int_limit E (repr_int (Z.abs z)) then Ok (repr_int z)
  else Err (str_limit_exceeded E).

(** [str(t)] of a tuple of [int]s, as an f-string prints it: the items
    are printed from left to right, and the first one the interpreter
    refuses to print raises. *)
Fixpoint str_items (E : Env) (items : list Z) : result (list string) :=
  match items with
  | [] => Ok []
  | z :: rest =>
      rbind (str_int E z) (fun t =>
      rbind (str_items E rest) (fun ts =>
      Ok (t :: ts)))
  end.

Definition str_tuple (E : Env) (items : list Z) : result string :=
  rbind (str_items E items) (fun ts =>
  Ok (match ts with
      | [t] => "(" ++ t ++ ",)"
      | _ => "(" ++ String.concat ", " ts ++ ")"
      end)).

(** [f"{self.dev_id}"] on an [Optional[int]]. *)
Definition format_dev_id (E : Env) (dev_id : option Z) : result string :=
  match dev_id with
  | None => Ok "None"
  | Some z => str_int E z
  end.

(** [id_suffix = f":{self.dev_id}" if self.dev_type == "cuda" else ""] *)
Definition id_suffix (E : Env) (self : Device) : result string :=
  if (dev_type self =? "cuda")%string
  then rbind (format_dev_id E (dev_id self)) (fun t => Ok (":" ++ t))
  else Ok "".

(** [Device.__repr__] *)
Definition Device__repr__ (E : Env) (self : Device) : result string :=
  rbind (id_suffix E self) (fun id_suffix =>
  Ok ("device('" ++ dev_type self ++ id_suffix ++ "')")).

(** [Device.__str__] *)
Definition Device__str__ (E : Env) (self : Device) : result string :=
  rbind (id_suffix E self) (fun id_suffix =>
  Ok (dev_type self ++ id_suffix)).

(** *** Listing the devices *)

(** [range(n)] *)
Definition range (n : Z) : list Z := map Z.of_nat (seq 0 (Z.to_nat n)).

(** [[f"cuda:{i}" for i in ordinals]] *)
Fixpoint cuda_descriptors (E : Env) (ordinals : list Z) : result (list string) :=
  match ordinals with
  | [] => Ok []
  | i :: rest =>
      rbind (str_int E i) (fun t =>
      rbind (cuda_descriptors E rest) (fun ts =>
      Ok (("cuda:" ++ t) :: ts)))
  end.

(** [get_available_devices].  [getDeviceCount] is the outcome of
    [_CUDA_BACKEND.cuda.runtime.getDeviceCount()], which is called only
    when [cupy] was imported. *)
Definition get_available_devices (E : Env) (getDeviceCount : result Z)
  : result (list string) :=
  let devices := ["cpu"] in
  match _CUDA_BACKEND E with
  | Some _ =>
      rbind getDeviceCount (fun num_cuda_devices =>
      rbind (cuda_descriptors E (range num_cuda_devices)) (fun cuda_devices =>
      Ok (devices ++ cuda_devices)%list))
  | None => Ok devices
  end.

(** ** The program state and the array library

    The array libraries ([numpy], [cupy]), the [Tensor] class and
    [_parse_factory_kwargs] live outside the modelled files.  They are
    taken as parameters: nothing is assumed about them beyond their
    signatures, so a statement holds for whatever they do, unless it
    names what it asks of them. *)

(** Arguments of [xp.random.rand(d0, d1, ..., dn)]: each one is meant to be
    an integer dimension, but a call site may pass a tuple. *)
Inductive rand_arg : Type :=
| ArgInt (d : Z)
| ArgTuple (t : list Z).

(** The module global [_NN_DEVICE] together with the state [W] of the
    array libraries (random generators, ambient accelerator). *)
Record state (W : Type) : Type := mkState {
  _NN_DEVICE : Device;
  world : W
}.

Arguments mkState {W} _ _.
Arguments _NN_DEVICE {W} _.
Arguments world {W} _.

(** A computation over the program state that may raise. *)
Definition M (W A : Type) : Type := state W -> result A * state W.

Definition ret {W A} (a : A) : M W A := fun s => (Ok a, s).

Definition raise {W A} (e : exn) : M W A := fun s => (Err e, s).

Definition bind {W A B} (m : M W A) (k : A -> M W B) : M W B :=
  fun s =>
    match m s with
    | (Ok a, s') => k a s'
    | (Err e, s') => (Err e, s')
    end.

Definition lift {W A} (f : W -> result A * W) : M W A :=
  fun s =>
    let (r, w) := f (world s) in
    (r, mkState (_NN_DEVICE s) w).

Definition pure {W A} (r : result A) : M W A := fun s => (r, s).

Notation "x <- m ;; k" := (bind m (fun x => k))
  (at level 61, m at next level, right associativity).
Notation "' p <- m ;; k" := (bind m (fun x => match x with p => k end))
  (at level 61, p pattern, m at next level, right associativity).

(** What the modelled files use of their surroundings.
    [W]: the state of the array libraries; [array]: their arrays;
    [num]: Python numbers; [Any]: arbitrary Python objects. *)
Class Library : Type := {
  W : Type;
  array : Type;
  DType : Type;
  num : Type;
  Any : Type;
  Tensor : Type;
  truthy : Any -> bool;
  (** Python numbers: integer literals, the literal [0.5], and the
      operators [/], [**], [*] and unary [-], any of which may raise. *)
  num_of_int : Z -> num;
  num_half : num;
  truediv : num -> num -> result num;
  pow : num -> num -> result num;
  mul : num -> num -> result num;
  neg : num -> result num;
  (** The array library [xp] ([numpy] or [cupy]). *)
  xp_random_rand : backend -> list rand_arg -> W -> result array * W;
  xp_random_normal : backend -> num -> num -> list Z -> W -> result array * W;
  xp_random_uniform : backend -> num -> num -> list Z -> W -> result array * W;
  xp_random_randint :
    backend -> Z -> Z -> list Z -> DType -> W -> result array * W;
  array_astype : array -> DType -> W -> result array * W;
  cupy_asnumpy : array -> W -> result array * W;
  cupy_asarray : array -> W -> result array * W;
  (** [cupy.cuda.Device(id).__enter__()] and its [__exit__]; the latter
      receives the exception in flight, if any. *)
  cuda_Device_enter : option Z -> W -> result (option Any) * W;
  cuda_Device_exit : option Z -> option exn -> W -> result (option Any) * W;
  (** [Tensor(data, req_grad=...)] and the attributes of a tensor. *)
  Tensor_init : array -> bool -> M W Tensor;
  Tensor_shape : Tensor -> list Z;
  Tensor_device : Tensor -> Device;
  Tensor_dtype : Tensor -> DType;
  _parse_factory_kwargs :
    option DeviceLike -> option DType -> M W (Device * DType)
}.

Section Emgrad.

Context {L : Library}.

(** *** [Device.__enter__], [Device.__exit__] and the [with] statement *)

Definition none_attr (name : string) : exn :=
  AttributeError ("'NoneType' object has no attribute '" ++ name ++ "'").

Definition Device__enter__ (E : Env) (self : Device) : M W (option Any) :=
  if (dev_type self =? "cpu")%string then ret None
  else
    match _CUDA_BACKEND E with
    | None => raise (none_attr "cuda")
    | Some _ => lift (cuda_Device_enter (dev_id self))
    end.

Definition Device__exit__ (E : Env) (self : Device) (args : option exn)
  : M W (option Any) :=
  if (dev_type self =? "cpu")%string then ret None
  else
    match _CUDA_BACKEND E with
    | None => raise (none_attr "cuda")
    | Some _ => lift (cuda_Device_exit (dev_id self) args)
    end.

Definition is_true (v : option Any) : bool :=
  match v with
  | None => false
  | Some v => truthy v
  end.

(** [with device: x = body].  The result is [None] when the body raised
    and [__exit__] returned a true value: the exception is swallowed
    and [x] stays unbound. *)
Definition with_device {A} (E : Env) (device : Device) (body : M W A)
  : M W (option A) :=
  _ <- Device__enter__ E device ;;
  fun s =>
    match body s with
    | (Ok a, s1) =>
        (_ <- Device__exit__ E device None ;; ret (Some a)) s1
    | (Err e, s1) =>
        (r <- Device__exit__ E device (Some e) ;;
         if is_true r then ret None else raise e) s1
    end.

Definition unbound (name : string) : exn :=
  UnboundLocalError
    ("cannot access local variable '" ++ name
     ++ "' where it is not associated with a value").

Definition get_nn_device : M W Device := fun s => (Ok (_NN_DEVICE s), s).

Definition move_to_device (E : Env) (data : array) (device : Device)
  : M W array :=
  cpu <- pure (Device_init E "cpu") ;;
  if Device_eq device (VDevice cpu) then
    match _CUDA_BACKEND E with
    | None => raise (none_attr "asnumpy")
    | Some _ => lift (cupy_asnumpy data)
    end
  else
    if cuda_available E then lift (cupy_asarray data)
    else raise (AssertionError "CUDA is not available.").

(** [device in devices] *)
Definition str_in (device : string) (devices : list string) : bool :=
  existsb (String.eqb device) devices.

Definition not_available_line (device : string) : string :=
  ">>> " ++ device ++ " is not available, Using CPU as default ...".

(** [set_nn_device].  The result is the list of lines it prints;
    [getDeviceCount] is as in [get_available_devices]. *)
Definition set_nn_device (E : Env) (getDeviceCount : result Z)
    (device : string) : M W (list string) :=
  devices <- pure (get_available_devices E getDeviceCount) ;;
  if str_in device devices then
    d <- pure (Device_init E device) ;;
    fun s => (Ok [], mkState d (world s))
  else
    d <- pure (Device_init E "cpu") ;;
    fun s => (Ok [not_available_line device], mkState d (world s)).

(** ** [emgrad/operators.py]: class [Op] *)

Record Op : Type := mkOp {
  op_xp : option backend;
  kwargs : list (string * Any);
  _cache : option (list Any)
}.

(** [Op.__init__] *)
Definition Op_init (device : Device) (kwargs : list (string * Any)) : Op :=
  mkOp (xp device) kwargs None.

Definition save_to_cache (self : Op) (args : list Any) : Op :=
  mkOp (op_xp self) (kwargs self) (Some args).

Definition retrieve_from_cache (self : Op) : result (list Any) * Op :=
  match _cache self with
  | None => (Err (AssertionError ""), self)
  | Some values => (Ok values, mkOp (op_xp self) (kwargs self) None)
  end.

(** A call on an operator's cache, and the operator after a sequence of
    such calls. *)
Inductive cache_call : Type :=
| Save (args : list Any)
| Retrieve.

Definition do_call (self : Op) (c : cache_call) : Op :=
  match c with
  | Save args => save_to_cache self args
  | Retrieve => snd (retrieve_from_cache self)
  end.

Definition do_calls (self : Op) (h : list cache_call) : Op :=
  fold_left do_call h self.

(** ** [emgrad/autograd/random/_base.py] *)

Variable E : Env.

(** [device.xp.<attr>]: an [AttributeError] when [xp] is [None]. *)
Definition device_xp (device : Device) (attr : string) : M W backend :=
  match xp device with
  | None => raise (none_attr attr)
  | Some b => ret b
  end.

(** Reading a local variable that a [with] block may have left unbound. *)
Definition local {A} (name : string) (v : option A) : M W A :=
  match v with
  | None => raise (unbound name)
  | Some a => ret a
  end.

Definition rand (shape : list Z) (device : option DeviceLike)
    (dtype : option DType) (req_grad : bool) : M W Tensor :=
  '(device, dtype) <- _parse_factory_kwargs device dtype ;;
  data <- with_device E device
    (xp_ <- device_xp device "random" ;;
     a <- lift (xp_random_rand xp_ [ArgTuple shape]) ;;
     lift (array_astype a dtype)) ;;
  data <- local "data" data ;;
  Tensor_init data req_grad.

Definition randint (shape : list Z) (low high : Z)
    (device : option DeviceLike) (dtype : option DType) (req_grad : bool)
  : M W Tensor :=
  '(device, dtype) <- _parse_factory_kwargs device dtype ;;
  data <- with_device E device
    (xp_ <- device_xp device "random" ;;
     lift (xp_random_randint xp_ low high shape dtype)) ;;
  data <- local "data" data ;;
  Tensor_init data req_grad.

Definition randint_like (x : Tensor) (low high : Z) (req_grad : bool)
  : M W Tensor :=
  randint (Tensor_shape x) low high
    (Some (IsDevice (Tensor_device x))) (Some (Tensor_dtype x)) req_grad.

Definition randn (shape : list Z) (mean std : num)
    (device : option DeviceLike) (dtype : option DType) (req_grad : bool)
  : M W Tensor :=
  '(device, dtype) <- _parse_factory_kwargs device dtype ;;
  data <- with_device E device
    (xp_ <- device_xp device "random" ;;
     a <- lift (xp_random_normal xp_ mean std shape) ;;
     lift (array_astype a dtype)) ;;
  data <- local "data" data ;;
  Tensor_init data req_grad.

Definition randn_like (x : Tensor) (mean var : num) (req_grad : bool)
  : M W Tensor :=
  randn (Tensor_shape x) mean var
    (Some (IsDevice (Tensor_device x))) (Some (Tensor_dtype x)) req_grad.

Definition uniform (shape : list Z) (low high : num)
    (device : option DeviceLike) (dtype : option DType) (req_grad : bool)
  : M W Tensor :=
  '(device, dtype) <- _parse_factory_kwargs device dtype ;;
  data <- with_device E device
    (xp_ <- device_xp device "random" ;;
     a <- lift (xp_random_uniform xp_ low high shape) ;;
     lift (array_astype a dtype)) ;;
  data <- local "data" data ;;
  Tensor_init data req_grad.

Definition uniform_like (x : Tensor) (low high : num) (req_grad : bool)
  : M W Tensor :=
  uniform (Tensor_shape x) low high
    (Some (IsDevice (Tensor_device x))) (Some (Tensor_dtype x)) req_grad.

(** What [numpy] and [cupy] document of [rand(d0, ..., dn)]: it takes its
    dimensions as separate integers and raises when handed a tuple. *)
Definition rand_takes_integers : Prop :=
  forall (b : backend) (args : list rand_arg) (w : W),
    (exists t, In (ArgTuple t) args) ->
    exists e w', xp_random_rand b args w = (Err e, w').

(** ** [emgrad/nn/init/_dist.py] *)

(** The error for an unsupported shape, given the printed shape. *)
Definition dims_not_supported (dims : string) : exn :=
  ValueError ("Tensor with dims " ++ dims
              ++ " is not supported. Must be at least 2D.").

(** [reduce(lambda x, y: x * y, shape[2:], 1)] *)
Definition kernel_prod (shape : list Z) : Z :=
  fold_left (fun x y => x * y) (skipn 2 shape) 1.

Definition _calculate_fan_in_and_fan_out (shape : list Z) : result (Z * Z) :=
  if (List.length shape =? 2)%nat then
    Ok (nth 0 shape 0, nth 1 shape 0)
  else if existsb (Nat.eqb (List.length shape)) [3; 4; 5]%nat then
    Ok (nth 1 shape 0 * kernel_prod shape, nth 0 shape 0 * kernel_prod shape)
  else rbind (str_tuple E shape) (fun dims => Err (dims_not_supported dims)).

(** [uniform], [normal] of the init module *)
Definition init_uniform (shape : list Z) (low high : num) (req_grad : bool)
  : M W Tensor :=
  device <- get_nn_device ;;
  uniform shape low high (Some (IsDevice device)) None req_grad.

Definition init_normal (shape : list Z) (mean std : num) (req_grad : bool)
  : M W Tensor :=
  device <- get_nn_device ;;
  randn shape mean std (Some (IsDevice device)) None req_grad.

Definition xavier_uniform (shape : list Z) (gain : num) (req_grad : bool)
  : M W Tensor :=
  '(fan_in, fan_out) <- pure (_calculate_fan_in_and_fan_out shape) ;;
  q <- pure (truediv (num_of_int 6) (num_of_int (fan_in + fan_out))) ;;
  r <- pure (pow q num_half) ;;
  bound <- pure (mul r gain) ;;
  low <- pure (neg bound) ;;
  device <- get_nn_device ;;
  uniform shape low bound (Some (IsDevice device)) None req_grad.

Definition xavier_normal (shape : list Z) (gain : num) (req_grad : bool)
  : M W Tensor :=
  '(fan_in, fan_out) <- pure (_calculate_fan_in_and_fan_out shape) ;;
  q <- pure (truediv (num_of_int 2) (num_of_int (fan_in + fan_out))) ;;
  r <- pure (pow q num_half) ;;
  std <- pure (mul r gain) ;;
  device <- get_nn_device ;;
  randn shape (num_of_int 0) std (Some (IsDevice device)) None req_grad.

Definition mode_ok (mode : string) : bool :=
  (mode =? "fan_in")%string || (mode =? "fan_out")%string.

Definition bad_mode : exn :=
  ValueError "mode must be either 'fan_in' or 'fan_out'.".

Definition kaiming_uniform (shape : list Z) (mode : string) (req_grad : bool)
  : M W Tensor :=
  if negb (mode_ok mode) then raise bad_mode
  else
    '(fan_in, fan_out) <- pure (_calculate_fan_in_and_fan_out shape) ;;
    let fan := if (mode =? "fan_in")%string then fan_in else fan_out in
    q <- pure (truediv (num_of_int 6) (num_of_int fan)) ;;
    bound <- pure (pow q num_half) ;;
    low <- pure (neg bound) ;;
    device <- get_nn_device ;;
    uniform shape low bound (Some (IsDevice device)) None req_grad.

Definition kaiming_normal (shape : list Z) (mode : string) (req_grad : bool)
  : M W Tensor :=
  if negb (mode_ok mode) then raise bad_mode
  else
    '(fan_in, fan_out) <- pure (_calculate_fan_in_and_fan_out shape) ;;
    let fan := if (mode =? "fan_in")%string then fan_in else fan_out in
    q <- pure (truediv (num_of_int 2) (num_of_int fan)) ;;
    std <- pure (pow q (num_of_int 5)) ;;
    device <- get_nn_device ;;
    randn shape (num_of_int 0) std (Some (IsDevice device)) None req_grad.

End Emgrad.

(** ** A reference array library

    A deterministic stand-in for [numpy] and [cupy], used to run the model
    on concrete inputs.  An array records the call that drew it, numbers
    are exact rationals, and the library state counts the draws. *)

Module Ref.

Definition W : Type := nat.

Inductive array : Type :=
| Rand (dims : list Z)
| Normal (loc scale : Q) (size : list Z)
| Uniform (low high : Q) (size : list Z)
| Randint (low high : Z) (size : list Z).

Inductive DType : Type := float32 | float64 | int64.

Definition num : Type := Q.

Definition Any : Type := Z.

Definition Tensor : Type := (array * DType * bool)%type.

Definition truthy (v : Any) : bool := negb (v =? 0).

Definition num_of_int (z : Z) : num := inject_Z z.

Definition num_half : num := (1 # 2)%Q.

Definition truediv (a b : num) : result num :=
  if Qeq_bool b 0 then Err (ZeroDivisionError "division by zero")
  else Ok (Qred (a / b)).

(** Exact powers only: the exponent has to be an integer. *)
Definition pow (a b : num) : result num :=
  if (Qden b =? 1)%positive then Ok (Qred (Qpower a (Qnum b)))
  else Err (OtherError "no exact value").

Definition mul (a b : num) : result num := Ok (Qred (a * b)).

Definition neg (a : num) : result num := Ok (Qred (- a)).

Fixpoint int_dims (args : list rand_arg) : option (list Z) :=
  match args with
  | [] => Some []
  | ArgInt d :: rest => option_map (cons d) (int_dims rest)
  | ArgTuple _ :: _ => None
  end.

(** [rand(d0, ..., dn)] takes integers only. *)
Definition xp_random_rand (b : backend) (args : list rand_arg) (w : W)
  : result array * W :=
  match int_dims args with
  | Some dims => (Ok (Rand dims), S w)
  | None =>
      (Err (TypeError "'tuple' object cannot be interpreted as an integer"), w)
  end.

Definition xp_random_normal (b : backend) (loc scale : num) (size : list Z)
    (w : W) : result array * W :=
  (Ok (Normal loc scale size), S w).

Definition xp_random_uniform (b : backend) (low high : num) (size : list Z)
    (w : W) : result array * W :=
  (Ok (Uniform low high size), S w).

Definition xp_random_randint (b : backend) (low high : Z) (size : list Z)
    (dtype : DType) (w : W) : result array * W :=
  (Ok (Randint low high size), S w).

Definition array_astype (a : array) (dtype : DType) (w : W)
  : result array * W :=
  (Ok a, w).

Definition cupy_asnumpy (a : array) (w : W) : result array * W := (Ok a, w).

Definition cupy_asarray (a : array) (w : W) : result array * W := (Ok a, w).

Definition cuda_Device_enter (id : option Z) (w : W)
  : result (option Any) * W :=
  (Ok (Some 1), w).

Definition cuda_Device_exit (id : option Z) (exc : option exn) (w : W)
  : result (option Any) * W :=
  (Ok None, w).

Definition Tensor_init (data : array) (req_grad : bool) (s : state W)
  : result Tensor * state W :=
  (Ok (data, float32, req_grad), s).

Definition Tensor_shape (x : Tensor) : list Z :=
  match fst (fst x) with
  | Rand dims => dims
  | Normal _ _ size => size
  | Uniform _ _ size => size
  | Randint _ _ size => size
  end.

Definition Tensor_device (x : Tensor) : Device := cpu_device.

Definition Tensor_dtype (x : Tensor) : DType := snd (fst x).

Definition _parse_factory_kwargs (E : Env) (device : option DeviceLike)
    (dtype : option DType) (s : state W) : result (Device * DType) * state W :=
  (rbind (select_device E device) (fun d =>
     Ok (d, match dtype with Some t => t | None => float32 end)), s).

(** A machine without [cupy], and one with [cupy] and an accelerator. *)
Definition host_only : Env := mkEnv false false 4300.
Definition with_cuda : Env := mkEnv true true 4300.

Definition start : state W := mkState cpu_device 0%nat.

End Ref.

Definition ref_library (E : Env) : Library := {|
  W := Ref.W;
  array := Ref.array;
  DType := Ref.DType;
  num := Ref.num;
  Any := Ref.Any;
  Tensor := Ref.Tensor;
  truthy := Ref.truthy;
  num_of_int := Ref.num_of_int;
  num_half := Ref.num_half;
  truediv := Ref.truediv;
  pow := Ref.pow;
  mul := Ref.mul;
  neg := Ref.neg;
  xp_random_rand := Ref.xp_random_rand;
  xp_random_normal := Ref.xp_random_normal;
  xp_random_uniform := Ref.xp_random_uniform;
  xp_random_randint := Ref.xp_random_randint;
  array_astype := Ref.array_astype;
  cupy_asnumpy := Ref.cupy_asnumpy;
  cupy_asarray := Ref.cupy_asarray;
  cuda_Device_enter := Ref.cuda_Device_enter;
  cuda_Device_exit := Ref.cuda_Device_exit;
  Tensor_init := Ref.Tensor_init;
  Tensor_shape := Ref.Tensor_shape;
  Tensor_device := Ref.Tensor_device;
  Tensor_dtype := Ref.Tensor_dtype;
  _parse_factory_kwargs := Ref._parse_factory_kwargs E
|}.

(** The reference library on a machine without [cupy]. *)
Definition host_library : Library := ref_library Ref.host_only.

(** * Properties *)

Section Properties.

Context {L : Library}.

Variable E : Env.

(** ** The operator cache *)

Lemma cache_after_save (self : Op) (args : list Any) :
  _cache (do_call self (Save args)) = Some args.
Proof. reflexivity. Qed.

Lemma cache_after_retrieve (self : Op) :
  _cache (do_call self Retrieve) = None.
Proof.
  unfold do_call, retrieve_from_cache.
  destruct (_cache self) eqn:Hc; simpl; [reflexivity | exact Hc].
Qed.

(** The cache holds a value exactly when the last call was a save. *)
Lemma cache_after_calls (h : list cache_call) (self : Op) :
  _cache self = None ->
  _cache (do_calls self h) =
  match last h Retrieve with
  | Save args => Some args
  | Retrieve => None
  end.
Proof.
  intros Hfresh. unfold do_calls.
  induction h as [| c h IH] using rev_ind.
  - exact Hfresh.
  - rewrite fold_left_app, last_last. simpl.
    destruct c as [args |].
    + apply cache_after_save.
    + apply cache_after_retrieve.
Qed.

Lemma retrieve_empty (self : Op) :
  _cache self = None ->
  retrieve_from_cache self = (Err (AssertionError ""), self).
Proof. intros H. unfold retrieve_from_cache. now rewrite H. Qed.

Lemma retrieve_full (self : Op) (args : list Any) :
  _cache self = Some args ->
  retrieve_from_cache self = (Ok args, mkOp (op_xp self) (kwargs self) None).
Proof. intros H. unfold retrieve_from_cache. now rewrite H. Qed.

(** C1.  The operator cache is single-use.  Take any operator, freshly
    constructed and then used through any sequence of [save_to_cache] and
    [retrieve_from_cache] calls.  If the last of these calls was not a
    save (none was made, or the last save has been retrieved since),
    [retrieve_from_cache] fails and leaves the operator as it is.  If the
    last call saved [args], [retrieve_from_cache] returns exactly [args]
    and empties the cache, and retrieving once more fails. *)
Theorem cache_single_use
    (device : Device) (kw : list (string * Any)) (h : list cache_call) :
  let self := do_calls (Op_init device kw) h in
  (last h Retrieve = Retrieve ->
   retrieve_from_cache self = (Err (AssertionError ""), self))
  /\
  (forall args, last h Retrieve = Save args ->
   exists self',
     retrieve_from_cache self = (Ok args, self')
     /\ _cache self' = None
     /\ retrieve_from_cache self' = (Err (AssertionError ""), self')).
Proof.
  intros self.
  assert (Hc : _cache self =
               match last h Retrieve with
               | Save args => Some args
               | Retrieve => None
               end)
    by (apply cache_after_calls; reflexivity).
  split.
  - intros Hlast. rewrite Hlast in Hc. now apply retrieve_empty.
  - intros args Hlast. rewrite Hlast in Hc.
    exists (mkOp (op_xp self) (kwargs self) None).
    split; [now apply retrieve_full |].
    split; [reflexivity | now apply retrieve_empty].
Qed.

(** ** Device descriptors *)

Lemma leading_digits_all (ds : string) :
  all_digits ds = true -> leading_digits ds = ds.
Proof.
  induction ds as [| c ds IH]; simpl; [reflexivity |].
  intros H. apply andb_true_iff in H as [Hc Hds].
  rewrite Hc. now rewrite IH.
Qed.

Lemma match_id_index (ds : string) :
  is_index ds = true -> match_id (String ":" ds) = Some ds.
Proof.
  unfold is_index. intros H. apply andb_true_iff in H as [Hne Hds].
  simpl. rewrite (leading_digits_all ds Hds).
  destruct ds; [discriminate | reflexivity].
Qed.

Lemma match_id_empty : match_id "" = None.
Proof. reflexivity. Qed.

Lemma cuda_available_backend :
  cuda_available E = true -> _CUDA_BACKEND E = Some cupy.
Proof.
  unfold cuda_available, _CUDA_BACKEND.
  destruct (cupy_imported E); [reflexivity | discriminate].
Qed.

Lemma Device_init_cpu : Device_init E "cpu" = Ok cpu_device.
Proof. reflexivity. Qed.

Lemma re_match_cpu_index (ds : string) :
  is_index ds = true ->
  re_match_device ("cpu:" ++ ds) = Some (mkMatch "cpu" (Some ds)).
Proof.
  intros H. unfold re_match_device.
  change (strip_prefix "cpu" ("cpu:" ++ ds)) with (Some (String ":" ds)).
  cbv beta iota. now rewrite (match_id_index ds H).
Qed.

Lemma re_match_cuda_index (ds : string) :
  is_index ds = true ->
  re_match_device ("cuda:" ++ ds) = Some (mkMatch "cuda" (Some ds)).
Proof.
  intros H. unfold re_match_device.
  change (strip_prefix "cpu" ("cuda:" ++ ds)) with (@None string).
  change (strip_prefix "cuda" ("cuda:" ++ ds)) with (Some (String ":" ds)).
  cbv beta iota. now rewrite (match_id_index ds H).
Qed.

Lemma int_within_limit (ds : string) :
  within_int_limit E ds = true -> int E ds = Ok (int_acc 0 ds).
Proof. intros H. unfold int. now rewrite H. Qed.

Lemma Device_init_cpu_index (ds : string) :
  is_index ds = true ->
  within_int_limit E ds = true ->
  Device_init E ("cpu:" ++ ds)
  = Ok (mkDevice "cpu" (Some (int_acc 0 ds)) (Some numpy)).
Proof.
  intros H Hlim. unfold Device_init, _get_type_and_id.
  rewrite (re_match_cpu_index ds H). simpl.
  now rewrite (int_within_limit ds Hlim).
Qed.

Lemma Device_init_cuda :
  cuda_available E = true ->
  Device_init E "cuda" = Ok (mkDevice "cuda" None (Some cupy)).
Proof.
  intros H. unfold Device_init, _get_type_and_id. simpl.
  rewrite H. simpl. now rewrite (cuda_available_backend H).
Qed.

Lemma Device_init_cuda_index (ds : string) :
  cuda_available E = true ->
  is_index ds = true ->
  within_int_limit E ds = true ->
  Device_init E ("cuda:" ++ ds)
  = Ok (mkDevice "cuda" (Some (int_acc 0 ds)) (Some cupy)).
Proof.
  intros Hc H Hlim. unfold Device_init, _get_type_and_id.
  rewrite (re_match_cuda_index ds H). simpl.
  rewrite Hc. simpl. rewrite (int_within_limit ds Hlim). simpl.
  now rewrite (cuda_available_backend Hc).
Qed.

Lemma Device_init_cuda_absent (s : string) :
  cuda_available E = false ->
  (s = "cuda" \/ exists ds, is_index ds = true /\ s = "cuda:" ++ ds) ->
  Device_init E s = Err (AssertionError "CUDA is not available.").
Proof.
  intros Hc [-> | [ds [H ->]]]; unfold Device_init, _get_type_and_id.
  - simpl. now rewrite Hc.
  - rewrite (re_match_cuda_index ds H). simpl. now rewrite Hc.
Qed.

Lemma Device_init_unknown (s : string) :
  strip_prefix "cpu" s = None ->
  strip_prefix "cuda" s = None ->
  Device_init E s = Err (ValueError ("Unknown device: " ++ s)).
Proof.
  intros H1 H2. unfold Device_init, _get_type_and_id, re_match_device.
  now rewrite H1, H2.
Qed.

(** The pattern matches exactly the strings that start with [cpu] or
    [cuda]: what follows a valid start is not looked at. *)
Lemma re_match_device_prefix (s : string) :
  re_match_device s <> None
  <-> strip_prefix "cpu" s <> None \/ strip_prefix "cuda" s <> None.
Proof.
  unfold re_match_device.
  destruct (strip_prefix "cpu" s) as [r |];
    [| destruct (strip_prefix "cuda" s) as [r |]];
    split; intros H; try discriminate; try (now left); try (now right).
  destruct H as [H | H]; now elim H.
Qed.

(** C2, as amended.  Parsing a string descriptor succeeds on [cpu] and
    [cpu:<index>], and, when an accelerator is present, on [cuda] and
    [cuda:<index>], giving the device of that kind and index; the index
    is a non-empty run of decimal digits that [int] agrees to convert.
    It fails with a [ValueError] (the invalid-device error) on every
    string that starts with neither [cpu] nor [cuda], and with an
    [AssertionError] (the device-unavailable error) on [cuda] and
    [cuda:<index>] when no accelerator is present. *)
Theorem parse_device_descriptors :
  parse_device E (IsStr "cpu") = Ok cpu_device
  /\ (forall ds, is_index ds = true -> within_int_limit E ds = true ->
        parse_device E (IsStr ("cpu:" ++ ds))
        = Ok (mkDevice "cpu" (Some (int_acc 0 ds)) (Some numpy)))
  /\ (cuda_available E = true ->
        parse_device E (IsStr "cuda") = Ok (mkDevice "cuda" None (Some cupy))
        /\ forall ds, is_index ds = true -> within_int_limit E ds = true ->
             parse_device E (IsStr ("cuda:" ++ ds))
             = Ok (mkDevice "cuda" (Some (int_acc 0 ds)) (Some cupy)))
  /\ (cuda_available E = false ->
        forall s,
          s = "cuda" \/ (exists ds, is_index ds = true /\ s = "cuda:" ++ ds) ->
          parse_device E (IsStr s)
          = Err (AssertionError "CUDA is not available."))
  /\ (forall s,
        strip_prefix "cpu" s = None ->
        strip_prefix "cuda" s = None ->
        parse_device E (IsStr s) = Err (ValueError ("Unknown device: " ++ s))).
Proof.
  unfold parse_device. repeat split.
  - intros ds H Hlim. now apply Device_init_cpu_index.
  - now apply Device_init_cuda.
  - intros ds Hds Hlim. now apply Device_init_cuda_index.
  - intros Hc s Hs. now apply Device_init_cuda_absent.
  - intros s H1 H2. now apply Device_init_unknown.
Qed.

(** ** Selecting a device *)

Lemma or_cpu_nonempty (s : string) : s <> "" -> or_cpu (Some s) = s.
Proof. destruct s; [congruence | reflexivity]. Qed.

(** C4, as amended.  [select_device] returns a [Device] argument itself;
    on a non-empty string it does what parsing that string does; and on
    [None] and on the empty string it returns the host device. *)
Theorem select_device_cases :
  (forall d, select_device E (Some (IsDevice d)) = Ok d)
  /\ (forall s, s <> "" ->
        select_device E (Some (IsStr s)) = parse_device E (IsStr s))
  /\ select_device E (Some (IsStr "")) = Ok cpu_device
  /\ select_device E None = Ok cpu_device.
Proof.
  repeat split.
  intros s Hs. unfold select_device, parse_device.
  now rewrite or_cpu_nonempty.
Qed.

(** ** Device equality *)

Lemma opt_int_eqb_eq (a b : option Z) : opt_int_eqb a b = true <-> a = b.
Proof.
  destruct a as [x |], b as [y |]; simpl; split; intros H;
    try discriminate; try reflexivity.
  - apply Z.eqb_eq in H. now subst.
  - inversion H. apply Z.eqb_refl.
Qed.

(** C5.  [Device.__eq__] answers true exactly when the other value is a
    [Device] with the same kind and the same optional index; in
    particular it answers false on every value that is not a [Device]. *)
Theorem Device_eq_kind_index (self : Device) (other : pyvalue) :
  Device_eq self other = true
  <-> exists d, other = VDevice d
                /\ dev_type d = dev_type self
                /\ dev_id d = dev_id self.
Proof.
  split.
  - destruct other as [| b | z | s | id | d]; simpl; try discriminate.
    intros H. apply andb_true_iff in H as [Ht Hi].
    exists d. repeat split.
    + now apply String.eqb_eq.
    + now apply opt_int_eqb_eq.
  - intros [d [-> [Ht Hi]]]. simpl. apply andb_true_iff. split.
    + now apply String.eqb_eq.
    + now apply opt_int_eqb_eq.
Qed.

(** ** Scoped execution *)

(** C6.  On a host device, entering and leaving the device context both
    return [None] and leave the whole program state as it was. *)
Theorem cpu_context_is_noop
    (self : Device) (args : option exn) (s : state W) :
  dev_type self = "cpu" ->
  Device__enter__ E self s = (Ok None, s)
  /\ Device__exit__ E self args s = (Ok None, s).
Proof.
  intros Hcpu. unfold Device__enter__, Device__exit__.
  rewrite Hcpu. split; reflexivity.
Qed.

(** A [with] block on a host device runs its body and nothing else. *)
Lemma with_host_device {A} (device : Device) (body : M W A) (s : state W) :
  dev_type device = "cpu" ->
  with_device E device body s =
  match body s with
  | (Ok a, s1) => (Ok (Some a), s1)
  | (Err e, s1) => (Err e, s1)
  end.
Proof.
  intros Hcpu. unfold with_device, bind, Device__enter__, Device__exit__.
  rewrite Hcpu. simpl.
  destruct (body s) as [[a | e] s1]; reflexivity.
Qed.

(** Whatever the device, a [with] block whose body raises either raises
    or leaves its variable unbound. *)
Lemma with_device_raising_body {A}
    (device : Device) (body : M W A) (s : state W) :
  (forall s0, exists e s1, body s0 = (Err e, s1)) ->
  (exists e s', with_device E device body s = (Err e, s'))
  \/ (exists s', with_device E device body s = (Ok None, s')).
Proof.
  intros Hbody. unfold with_device, bind.
  destruct (Device__enter__ E device s) as [[r | e] s0];
    [| left; now exists e, s0].
  destruct (Hbody s0) as [e [s1 ->]].
  destruct (Device__exit__ E device (Some e) s1) as [[r' | e'] s2];
    [| left; now exists e', s2].
  destruct (is_true r').
  - right. now exists s2.
  - left. now exists e, s2.
Qed.

(** ** Moving arrays *)

(** C3, where the code departs from it.  On a machine without [cupy],
    moving any array to the host device raises an [AttributeError]:
    [_CUDA_BACKEND] is [None] and the code reads its [asnumpy]. *)
Theorem move_to_host_without_cupy
    (available : bool) (limit : nat) (data : array) (s : state W) :
  move_to_device (mkEnv false available limit) data cpu_device s
  = (Err (AttributeError "'NoneType' object has no attribute 'asnumpy'"), s).
Proof. reflexivity. Qed.

(** With [cupy] imported, the move to the host is [cupy.asnumpy]. *)
Lemma move_to_host_with_cupy (data : array) (s : state W) :
  cupy_imported E = true ->
  move_to_device E data cpu_device s = lift (cupy_asnumpy data) s.
Proof.
  intros H. unfold move_to_device, bind, pure, _CUDA_BACKEND.
  simpl. now rewrite H.
Qed.

(** Moving to an accelerator that is absent fails the assertion. *)
Lemma move_to_absent_accelerator
    (data : array) (device : Device) (s : state W) :
  Device_eq device (VDevice cpu_device) = false ->
  cuda_available E = false ->
  move_to_device E data device s
  = (Err (AssertionError "CUDA is not available."), s).
Proof.
  intros Hd Hc. unfold move_to_device, bind, pure.
  change (Device_init E "cpu") with (Ok cpu_device). cbv beta iota.
  now rewrite Hd, Hc.
Qed.

(** ** Random factories *)

(** [randn] on a host device: one call of the library's [normal], with
    [std] as its scale and the shape tuple as its size. *)
Lemma randn_on_host
    (shape : list Z) (mean std : num) (device : option DeviceLike)
    (dtype : option DType) (req_grad : bool) (s s1 : state W)
    (dev : Device) (dt : DType) (b : backend) :
  _parse_factory_kwargs device dtype s = (Ok (dev, dt), s1) ->
  dev_type dev = "cpu" ->
  xp dev = Some b ->
  randn E shape mean std device dtype req_grad s =
  (a <- lift (xp_random_normal b mean std shape) ;;
   a' <- lift (array_astype a dt) ;;
   Tensor_init a' req_grad) s1.
Proof.
  intros Hkw Hcpu Hxp. unfold randn.
  unfold bind at 1. rewrite Hkw.
  unfold bind at 1. rewrite (with_host_device _ _ _ Hcpu).
  unfold device_xp. rewrite Hxp.
  unfold bind, ret, local.
  destruct (lift (xp_random_normal b mean std shape) s1) as [[a | e] s2];
    [| reflexivity].
  destruct (lift (array_astype a dt) s2) as [[a' | e] s3]; reflexivity.
Qed.

Lemma uniform_on_host
    (shape : list Z) (low high : num) (device : option DeviceLike)
    (dtype : option DType) (req_grad : bool) (s s1 : state W)
    (dev : Device) (dt : DType) (b : backend) :
  _parse_factory_kwargs device dtype s = (Ok (dev, dt), s1) ->
  dev_type dev = "cpu" ->
  xp dev = Some b ->
  uniform E shape low high device dtype req_grad s =
  (a <- lift (xp_random_uniform b low high shape) ;;
   a' <- lift (array_astype a dt) ;;
   Tensor_init a' req_grad) s1.
Proof.
  intros Hkw Hcpu Hxp. unfold uniform.
  unfold bind at 1. rewrite Hkw.
  unfold bind at 1. rewrite (with_host_device _ _ _ Hcpu).
  unfold device_xp. rewrite Hxp.
  unfold bind, ret, local.
  destruct (lift (xp_random_uniform b low high shape) s1) as [[a | e] s2];
    [| reflexivity].
  destruct (lift (array_astype a dt) s2) as [[a' | e] s3]; reflexivity.
Qed.

Lemma randint_on_host
    (shape : list Z) (low high : Z) (device : option DeviceLike)
    (dtype : option DType) (req_grad : bool) (s s1 : state W)
    (dev : Device) (dt : DType) (b : backend) :
  _parse_factory_kwargs device dtype s = (Ok (dev, dt), s1) ->
  dev_type dev = "cpu" ->
  xp dev = Some b ->
  randint E shape low high device dtype req_grad s =
  (a <- lift (xp_random_randint b low high shape dt) ;;
   Tensor_init a req_grad) s1.
Proof.
  intros Hkw Hcpu Hxp. unfold randint.
  unfold bind at 1. rewrite Hkw.
  unfold bind at 1. rewrite (with_host_device _ _ _ Hcpu).
  unfold device_xp. rewrite Hxp.
  unfold bind, ret, local.
  destruct (lift (xp_random_randint b low high shape dt) s1) as [[a | e] s2];
    reflexivity.
Qed.

(** The body of [rand]'s [with] block raises in every state. *)
Lemma rand_body_raises (shape : list Z) (dev : Device) (dt : DType) :
  rand_takes_integers ->
  forall s0 : state W,
  exists e s1,
    (xp_ <- device_xp dev "random" ;;
     a <- lift (xp_random_rand xp_ [ArgTuple shape]) ;;
     lift (array_astype a dt)) s0 = (Err e, s1).
Proof.
  intros Hrand s0. unfold bind, device_xp.
  destruct (xp dev) as [b |].
  - unfold ret, lift.
    destruct (Hrand b [ArgTuple shape] (world s0)) as [e [w' Hcall]].
    + exists shape. now left.
    + rewrite Hcall. now eexists; eexists.
  - unfold raise. now eexists; eexists.
Qed.

(** C8.  Given that the library's [rand] takes integers only, the factory
    [rand] raises for every shape and every other argument, in every
    state, and it does so before it reaches the [Tensor] constructor:
    whatever stands in the constructor's place, the outcome is the same
    exception.  [rand] hands the shape tuple to the library as a single
    positional argument, whereas [randn], [uniform] and [randint] hand
    it over as the size argument, and on a host device return the tensor
    built from the library's draw. *)
Theorem rand_always_raises :
  rand_takes_integers ->
  (forall shape device dtype req_grad (s : state W),
     exists e s',
       rand E shape device dtype req_grad s = (Err e, s')
       /\ forall construct : array -> M W Tensor,
            ('(device, dtype) <- _parse_factory_kwargs device dtype ;;
             data <- with_device E device
               (xp_ <- device_xp device "random" ;;
                a <- lift (xp_random_rand xp_ [ArgTuple shape]) ;;
                lift (array_astype a dtype)) ;;
             data <- local "data" data ;;
             construct data) s = (Err e, s'))
  /\
  (forall shape device dtype req_grad (s s1 : state W) dev dt b,
     _parse_factory_kwargs device dtype s = (Ok (dev, dt), s1) ->
     dev_type dev = "cpu" ->
     xp dev = Some b ->
     (forall mean std,
        randn E shape mean std device dtype req_grad s =
        (a <- lift (xp_random_normal b mean std shape) ;;
         a' <- lift (array_astype a dt) ;;
         Tensor_init a' req_grad) s1)
     /\ (forall low high,
        uniform E shape low high device dtype req_grad s =
        (a <- lift (xp_random_uniform b low high shape) ;;
         a' <- lift (array_astype a dt) ;;
         Tensor_init a' req_grad) s1)
     /\ (forall low high,
        randint E shape low high device dtype req_grad s =
        (a <- lift (xp_random_randint b low high shape dt) ;;
         Tensor_init a req_grad) s1)).
Proof.
  intros Hrand. split.
  - intros shape device dtype req_grad s.
    assert (Hany : exists e s',
               forall construct : array -> M W Tensor,
                 ('(device, dtype) <- _parse_factory_kwargs device dtype ;;
                  data <- with_device E device
                    (xp_ <- device_xp device "random" ;;
                     a <- lift (xp_random_rand xp_ [ArgTuple shape]) ;;
                     lift (array_astype a dtype)) ;;
                  data <- local "data" data ;;
                  construct data) s = (Err e, s')).
    { unfold bind at 1.
      destruct (_parse_factory_kwargs device dtype s) as [[[dev dt] | e] s0];
        [| now exists e, s0].
      destruct (with_device_raising_body dev _ s0
                  (rand_body_raises shape dev dt Hrand))
        as [[e [s1 Hw]] | [s1 Hw]].
      - exists e, s1. intros construct. unfold bind at 1. now rewrite Hw.
      - exists (unbound "data"), s1. intros construct.
        unfold bind at 1. now rewrite Hw. }
    destruct Hany as [e [s' Hany]]. exists e, s'. split.
    + exact (Hany (fun data => Tensor_init data req_grad)).
    + exact Hany.
  - intros shape device dtype req_grad s s1 dev dt b Hkw Hcpu Hxp.
    split; [| split]; intros.
    + now apply randn_on_host with (dev := dev).
    + now apply uniform_on_host with (dev := dev).
    + now apply randint_on_host with (dev := dev).
Qed.

(** C9.  [randn_like] hands its [var] argument to the library as the
    scale (the standard deviation) of the normal distribution: the only
    draw it makes is [normal] with mean [mean], scale [var] and the shape
    of [x], under the device and dtype derived from [x].  On a host
    device the tensor returned is the one built from that draw. *)
Theorem randn_like_var_is_scale
    (x : Tensor) (mean var : num) (req_grad : bool) (s s1 : state W)
    (dev : Device) (dt : DType) :
  _parse_factory_kwargs
    (Some (IsDevice (Tensor_device x))) (Some (Tensor_dtype x)) s
  = (Ok (dev, dt), s1) ->
  randn_like E x mean var req_grad s =
  (data <- with_device E dev
     (xp_ <- device_xp dev "random" ;;
      a <- lift (xp_random_normal xp_ mean var (Tensor_shape x)) ;;
      lift (array_astype a dt)) ;;
   data <- local "data" data ;;
   Tensor_init data req_grad) s1
  /\
  (forall b, dev_type dev = "cpu" -> xp dev = Some b ->
     randn_like E x mean var req_grad s =
     (a <- lift (xp_random_normal b mean var (Tensor_shape x)) ;;
      a' <- lift (array_astype a dt) ;;
      Tensor_init a' req_grad) s1).
Proof.
  intros Hkw. split.
  - unfold randn_like, randn. unfold bind at 1. now rewrite Hkw.
  - intros b Hcpu Hxp. unfold randn_like.
    now apply randn_on_host with (dev := dev).
Qed.

(** ** Weight initialisers *)

Lemma fan_of_2d (d0 d1 : Z) :
  _calculate_fan_in_and_fan_out E [d0; d1] = Ok (d0, d1).
Proof. reflexivity. Qed.

Lemma fan_of_kernel (d0 d1 k0 : Z) (ks : list Z) :
  (List.length ks <= 2)%nat ->
  _calculate_fan_in_and_fan_out E (d0 :: d1 :: k0 :: ks)
  = Ok (d1 * kernel_prod (d0 :: d1 :: k0 :: ks),
        d0 * kernel_prod (d0 :: d1 :: k0 :: ks)).
Proof.
  intros H. destruct ks as [| k1 [| k2 [| k3 ks]]]; try reflexivity.
  simpl in H. lia.
Qed.

(** Outside 2 to 5 dimensions the fan computation prints the shape and
    raises. *)
Lemma fan_undefined (shape : list Z) :
  (List.length shape < 2 \/ 5 < List.length shape)%nat ->
  _calculate_fan_in_and_fan_out E shape
  = rbind (str_tuple E shape) (fun dims => Err (dims_not_supported dims)).
Proof.
  unfold _calculate_fan_in_and_fan_out.
  destruct shape as [| d0 [| d1 [| d2 [| d3 [| d4 [| d5 rest]]]]]];
    intros H; try reflexivity; simpl in H; lia.
Qed.

(** The fan computation succeeds exactly on shapes of 2 to 5 dimensions. *)
Lemma fan_defined_iff (shape : list Z) :
  is_ok (_calculate_fan_in_and_fan_out E shape) = true
  <-> (2 <= List.length shape <= 5)%nat.
Proof.
  split.
  - intros H.
    destruct (Nat.le_gt_cases 2 (List.length shape)) as [H2 | H2];
      [destruct (Nat.le_gt_cases (List.length shape) 5) as [H5 | H5] |];
      [lia | |];
      rewrite fan_undefined in H by lia;
      destruct (str_tuple E shape); discriminate H.
  - unfold _calculate_fan_in_and_fan_out.
    destruct shape as [| d0 [| d1 [| d2 [| d3 [| d4 [| d5 rest]]]]]]; simpl;
      intros H; try reflexivity; lia.
Qed.

Lemma fan_defined (shape : list Z) :
  (2 <= List.length shape <= 5)%nat ->
  exists fan_in fan_out,
    _calculate_fan_in_and_fan_out E shape = Ok (fan_in, fan_out).
Proof.
  intros H. apply fan_defined_iff in H.
  destruct (_calculate_fan_in_and_fan_out E shape) as [[fi fo] | e];
    [now exists fi, fo | discriminate].
Qed.

(** Printing a tuple whose items all print gives its [repr]; a failure to
    print is the digit-limit error. *)
Lemma str_items_within (items : list Z) :
  (forall z, In z items -> str_int E z = Ok (repr_int z)) ->
  str_items E items = Ok (map repr_int items).
Proof.
  induction items as [| z rest IH]; intros H; simpl; [reflexivity |].
  rewrite (H z) by now left. simpl.
  rewrite IH by (intros y Hy; apply H; now right). reflexivity.
Qed.

Lemma concat_repr (items : list Z) :
  String.concat ", " (map repr_int items) = join_repr items.
Proof.
  induction items as [| z [| y rest] IH]; try reflexivity.
  change (String.concat ", " (map repr_int (z :: y :: rest)))
    with (repr_int z ++ ", " ++ String.concat ", " (map repr_int (y :: rest))).
  now rewrite IH.
Qed.

Lemma str_tuple_within (items : list Z) :
  (forall z, In z items -> str_int E z = Ok (repr_int z)) ->
  str_tuple E items = Ok (repr_tuple items).
Proof.
  intros H. unfold str_tuple. rewrite (str_items_within items H). simpl.
  destruct items as [| z [| y rest]]; try reflexivity.
  unfold repr_tuple. now rewrite concat_repr.
Qed.

Lemma str_int_cases (z : Z) :
  str_int E z = Ok (repr_int z) \/ str_int E z = Err (str_limit_exceeded E).
Proof.
  unfold str_int.
  destruct (within_int_limit E (repr_int (Z.abs z))); [now left | now right].
Qed.

Lemma str_items_error (items : list Z) (e : exn) :
  str_items E items = Err e -> e = str_limit_exceeded E.
Proof.
  induction items as [| z rest IH]; simpl; [discriminate |].
  destruct (str_int_cases z) as [-> | ->]; simpl.
  - destruct (str_items E rest) as [ts | e']; simpl; [discriminate |].
    intros [= <-]. now apply IH.
  - now intros [= <-].
Qed.

Lemma str_tuple_error (items : list Z) (e : exn) :
  str_tuple E items = Err e -> e = str_limit_exceeded E.
Proof.
  unfold str_tuple.
  destruct (str_items E items) as [ts | e'] eqn:Hs; simpl; [discriminate |].
  intros [= <-]. now apply (str_items_error items).
Qed.

(** C7.  On a shape of 2 to 5 dimensions and a mode among [fan_in] and
    [fan_out], [kaiming_normal] computes the fans, takes [fan] by the
    mode, evaluates [(2 / fan) ** 5] (the exponent is the integer [5])
    and draws with that value as the standard deviation: once the
    expression has a value [std], the only draw made is the library's
    [normal] with mean [0], scale [std] and the shape, under the device
    and dtype that the keyword parsing derives from the selected device;
    on a host device the tensor returned is the one built from that
    draw.  When the expression raises, no draw is made. *)
Theorem kaiming_normal_std
    (shape : list Z) (mode : string) (req_grad : bool) (s : state W) :
  (2 <= List.length shape <= 5)%nat ->
  mode_ok mode = true ->
  exists fan_in fan_out,
    _calculate_fan_in_and_fan_out E shape = Ok (fan_in, fan_out)
    /\ let fan := if (mode =? "fan_in")%string then fan_in else fan_out in
       kaiming_normal E shape mode req_grad s =
       (q <- pure (truediv (num_of_int 2) (num_of_int fan)) ;;
        std <- pure (pow q (num_of_int 5)) ;;
        randn E shape (num_of_int 0) std
          (Some (IsDevice (_NN_DEVICE s))) None req_grad) s
       /\ (forall q std dev dt s1,
             truediv (num_of_int 2) (num_of_int fan) = Ok q ->
             pow q (num_of_int 5) = Ok std ->
             _parse_factory_kwargs (Some (IsDevice (_NN_DEVICE s))) None s
             = (Ok (dev, dt), s1) ->
             kaiming_normal E shape mode req_grad s =
             (data <- with_device E dev
                (xp_ <- device_xp dev "random" ;;
                 a <- lift (xp_random_normal xp_ (num_of_int 0) std shape) ;;
                 lift (array_astype a dt)) ;;
              data <- local "data" data ;;
              Tensor_init data req_grad) s1
             /\ forall b, dev_type dev = "cpu" -> xp dev = Some b ->
                  kaiming_normal E shape mode req_grad s =
                  (a <- lift (xp_random_normal b (num_of_int 0) std shape) ;;
                   a' <- lift (array_astype a dt) ;;
                   Tensor_init a' req_grad) s1)
       /\ (forall e,
             truediv (num_of_int 2) (num_of_int fan) = Err e
             \/ (exists q, truediv (num_of_int 2) (num_of_int fan) = Ok q
                           /\ pow q (num_of_int 5) = Err e) ->
             kaiming_normal E shape mode req_grad s = (Err e, s)).
Proof.
  intros Hlen Hmode.
  destruct (fan_defined shape Hlen) as [fan_in [fan_out Hfan]].
  exists fan_in, fan_out. split; [exact Hfan |].
  cbv zeta.
  assert (Hbody :
    kaiming_normal E shape mode req_grad s =
    (q <- pure (truediv (num_of_int 2)
                  (num_of_int (if (mode =? "fan_in")%string
                               then fan_in else fan_out))) ;;
     std <- pure (pow q (num_of_int 5)) ;;
     randn E shape (num_of_int 0) std
       (Some (IsDevice (_NN_DEVICE s))) None req_grad) s).
  { unfold kaiming_normal. rewrite Hmode, Hfan. simpl negb. cbv iota.
    unfold bind, pure, get_nn_device.
    destruct (truediv (num_of_int 2)
                (num_of_int (if (mode =? "fan_in")%string
                             then fan_in else fan_out)))
      as [q | e]; [| reflexivity].
    destruct (pow q (num_of_int 5)) as [std | e]; reflexivity. }
  split; [exact Hbody |]. split.
  - intros q std dev dt s1 Hq Hstd Hkw.
    assert (Hrandn :
      kaiming_normal E shape mode req_grad s =
      randn E shape (num_of_int 0) std
        (Some (IsDevice (_NN_DEVICE s))) None req_grad s).
    { rewrite Hbody. unfold bind, pure. now rewrite Hq, Hstd. }
    rewrite Hrandn. split.
    + unfold randn. unfold bind at 1. now rewrite Hkw.
    + intros b Hcpu Hxp. now apply randn_on_host with (dev := dev).
  - intros e [He | [q [Hq He]]]; rewrite Hbody; unfold bind, pure.
    + now rewrite He.
    + now rewrite Hq, He.
Qed.

(** C10.  The fan computation succeeds exactly on shapes of 2 to 5
    dimensions.  On every other shape it raises a [ValueError]: the one
    whose message names the shape and ends in [Must be at least 2D.]
    when every dimension can be printed, and otherwise the one the
    interpreter raises for an integer too long to print.  The same error
    comes out of [xavier_uniform] and [xavier_normal], and of
    [kaiming_uniform] and [kaiming_normal] under a valid mode; under an
    invalid mode the latter two raise the [ValueError] about the mode.
    No state is touched. *)
Theorem initialisers_need_2_to_5_dims (shape : list Z) :
  (is_ok (_calculate_fan_in_and_fan_out E shape) = true
   <-> (2 <= List.length shape <= 5)%nat)
  /\
  ((List.length shape < 2 \/ 5 < List.length shape)%nat ->
   exists msg,
     _calculate_fan_in_and_fan_out E shape = Err (ValueError msg)
     /\ ((forall z, In z shape -> str_int E z = Ok (repr_int z)) ->
         msg = "Tensor with dims " ++ repr_tuple shape
               ++ " is not supported. Must be at least 2D.")
     /\ ((exists z, In z shape /\ str_int E z <> Ok (repr_int z)) ->
         ValueError msg = str_limit_exceeded E)
     /\ forall gain mode req_grad (s : state W),
          xavier_uniform E shape gain req_grad s = (Err (ValueError msg), s)
          /\ xavier_normal E shape gain req_grad s
             = (Err (ValueError msg), s)
          /\ kaiming_uniform E shape mode req_grad s
             = (Err (if mode_ok mode then ValueError msg else bad_mode), s)
          /\ kaiming_normal E shape mode req_grad s
             = (Err (if mode_ok mode then ValueError msg else bad_mode), s)).
Proof.
  split; [apply fan_defined_iff |].
  intros Hlen. pose proof (fan_undefined shape Hlen) as Hfan.
  assert (Hmsg : exists msg,
             _calculate_fan_in_and_fan_out E shape = Err (ValueError msg)
             /\ ((forall z, In z shape -> str_int E z = Ok (repr_int z)) ->
                 msg = "Tensor with dims " ++ repr_tuple shape
                       ++ " is not supported. Must be at least 2D.")
             /\ ((exists z, In z shape /\ str_int E z <> Ok (repr_int z)) ->
                 ValueError msg = str_limit_exceeded E)).
  { destruct (str_tuple E shape) as [dims | e] eqn:Hs.
    - exists ("Tensor with dims " ++ dims
              ++ " is not supported. Must be at least 2D.").
      split; [now rewrite Hfan |]. split.
      + intros Hall. rewrite (str_tuple_within shape Hall) in Hs.
        now inversion Hs.
      + intros [z [Hz Hbad]]. exfalso.
        unfold str_tuple in Hs.
        destruct (str_items E shape) as [ts | e] eqn:Hi; [| discriminate].
        clear Hs Hfan Hlen. revert ts Hi.
        induction shape as [| y rest IH]; [destruct Hz |].
        intros ts. simpl.
        destruct (str_int_cases y) as [Hy | Hy]; rewrite Hy; simpl;
          [| discriminate].
        destruct (str_items E rest) as [ts' | e]; simpl; [| discriminate].
        intros _. destruct Hz as [-> | Hz]; [now elim Hbad |].
        now apply (IH Hz ts').
    - pose proof (str_tuple_error shape e Hs) as He. subst e.
      unfold str_limit_exceeded in *.
      eexists. split; [rewrite Hfan; reflexivity |]. split.
      + intros Hall. rewrite (str_tuple_within shape Hall) in Hs.
        discriminate Hs.
      + intros _. reflexivity. }
  destruct Hmsg as [msg [Hcalc [Hall Hbad]]].
  exists msg. split; [exact Hcalc |]. split; [exact Hall |].
  split; [exact Hbad |].
  intros gain mode req_grad s.
  unfold xavier_uniform, xavier_normal, kaiming_uniform, kaiming_normal.
  rewrite Hcalc. repeat split; try reflexivity;
    destruct (mode_ok mode); reflexivity.
Qed.

(** * Further properties of the modelled code *)

(** ** Decimal digits *)

Lemma is_digit_cases (c : ascii) :
  is_digit c = true ->
  c = "0"%char \/ c = "1"%char \/ c = "2"%char \/ c = "3"%char \/ c = "4"%char
  \/ c = "5"%char \/ c = "6"%char \/ c = "7"%char \/ c = "8"%char \/ c = "9"%char.
Proof.
  destruct c as [[] [] [] [] [] [] [] []]; intros H; try discriminate H; tauto.
Qed.

(** Every run of digits is the printed form of a decimal numeral. *)
Lemma digits_are_uint (ds : string) :
  all_digits ds = true -> exists d, NilEmpty.string_of_uint d = ds.
Proof.
  induction ds as [| c ds IH]; simpl.
  - intros _. now exists Decimal.Nil.
  - intros H. apply andb_true_iff in H as [Hc Hds].
    destruct (IH Hds) as [d <-].
    destruct (is_digit_cases c Hc) as [-> | [-> | [-> | [-> | [-> | [-> | [-> | [-> | [-> | ->]]]]]]]]].
    + now exists (Decimal.D0 d).
    + now exists (Decimal.D1 d).
    + now exists (Decimal.D2 d).
    + now exists (Decimal.D3 d).
    + now exists (Decimal.D4 d).
    + now exists (Decimal.D5 d).
    + now exists (Decimal.D6 d).
    + now exists (Decimal.D7 d).
    + now exists (Decimal.D8 d).
    + now exists (Decimal.D9 d).
Qed.

Lemma uint_all_digits (d : Decimal.uint) :
  all_digits (NilEmpty.string_of_uint d) = true.
Proof. induction d; simpl; auto. Qed.

Lemma uint_length (d : Decimal.uint) :
  String.length (NilEmpty.string_of_uint d) = Decimal.nb_digits d.
Proof. induction d; simpl; auto. Qed.

Lemma int_acc_pos (d : Decimal.uint) (p : positive) :
  int_acc (Z.pos p) (NilEmpty.string_of_uint d) = Z.pos (Pos.of_uint_acc d p).
Proof.
  revert p.
  induction d; intros p;
    cbn [NilEmpty.string_of_uint int_acc Pos.of_uint_acc];
    try reflexivity;
    rewrite <- IHd; f_equal; unfold digit_value;
    cbn [nat_of_ascii]; vm_compute Z.of_nat; lia.
Qed.

Lemma int_acc_uint (d : Decimal.uint) :
  int_acc 0 (NilEmpty.string_of_uint d) = Z.of_N (Pos.of_uint d).
Proof.
  induction d;
    cbn [NilEmpty.string_of_uint int_acc Pos.of_uint];
    try reflexivity; try exact IHd;
    cbn [Z.of_N]; rewrite <- int_acc_pos; reflexivity.
Qed.

Lemma repr_int_of_N (n : N) :
  repr_int (Z.of_N n) = NilEmpty.string_of_uint (N.to_uint n).
Proof.
  unfold repr_int. destruct n as [| p]; simpl; [reflexivity |].
  pose proof (Unsigned.to_uint_nonnil p) as Hnil.
  destruct (Pos.to_uint p); try reflexivity. now elim Hnil.
Qed.

(** Printing the value of an index gives an index again, with the same
    value and no more digits. *)
Lemma repr_int_of_index (ds : string) :
  is_index ds = true ->
  is_index (repr_int (int_acc 0 ds)) = true
  /\ int_acc 0 (repr_int (int_acc 0 ds)) = int_acc 0 ds
  /\ (String.length (repr_int (int_acc 0 ds)) <= String.length ds)%nat
  /\ 0 <= int_acc 0 ds.
Proof.
  unfold is_index. intros H. apply andb_true_iff in H as [Hne Hds].
  destruct (digits_are_uint ds Hds) as [d <-].
  assert (Hd : d <> Decimal.Nil) by (intros ->; discriminate Hne).
  rewrite int_acc_uint, repr_int_of_N.
  change (N.to_uint (Pos.of_uint d)) with (N.to_uint (N.of_uint d)).
  rewrite DecimalN.Unsigned.to_of.
  repeat split.
  - rewrite uint_all_digits, andb_true_r.
    pose proof (DecimalFacts.unorm_nonnil d) as Hn.
    destruct (Decimal.unorm d); try reflexivity. now elim Hn.
  - rewrite int_acc_uint. f_equal. apply DecimalPos.Unsigned.of_uint_norm.
  - rewrite !uint_length. now apply nb_digits_unorm.
  - apply N2Z.is_nonneg.
Qed.

Lemma within_int_limit_shorter (s t : string) :
  (String.length s <= String.length t)%nat ->
  within_int_limit E t = true -> within_int_limit E s = true.
Proof.
  unfold within_int_limit. intros Hlen H.
  apply orb_true_iff in H as [H | H]; apply orb_true_iff; [now left | right].
  apply Nat.leb_le in H. apply Nat.leb_le. lia.
Qed.

Lemma str_int_of_index (ds : string) :
  is_index ds = true ->
  within_int_limit E ds = true ->
  str_int E (int_acc 0 ds) = Ok (repr_int (int_acc 0 ds)).
Proof.
  intros H Hlim. destruct (repr_int_of_index ds H) as [_ [_ [Hlen Hpos]]].
  unfold str_int. rewrite Z.abs_eq by exact Hpos.
  now rewrite (within_int_limit_shorter _ _ Hlen Hlim).
Qed.

(** ** Constructed devices *)

Lemma leading_digits_are_digits (s : string) :
  all_digits (leading_digits s) = true.
Proof.
  induction s as [| c s IH]; simpl; [reflexivity |].
  destruct (is_digit c) eqn:Hc; simpl; [now rewrite Hc | reflexivity].
Qed.

Lemma match_id_is_index (rest ds : string) :
  match_id rest = Some ds -> is_index ds = true.
Proof.
  unfold match_id. destruct rest as [| c r]; [discriminate |].
  destruct (Ascii.eqb c ":") eqn:Hc.
  - apply Ascii.eqb_eq in Hc. subst c.
    pose proof (leading_digits_are_digits r) as Hd.
    destruct (leading_digits r) as [| c' ds'] eqn:Hl; [discriminate |].
    intros [= <-]. unfold is_index. now rewrite Hd.
  - destruct c as [[] [] [] [] [] [] [] []]; try discriminate.
Qed.

(** What a successful construction tells about the descriptor. *)
Lemma Device_init_inv (s : string) (d : Device) :
  Device_init E s = Ok d ->
  exists rest,
    ((strip_prefix "cpu" s = Some rest
      /\ dev_type d = "cpu" /\ xp d = Some numpy)
     \/ (strip_prefix "cuda" s = Some rest
         /\ dev_type d = "cuda" /\ xp d = Some cupy
         /\ cuda_available E = true))
    /\ match match_id rest with
       | None => dev_id d = None
       | Some ds => within_int_limit E ds = true
                    /\ dev_id d = Some (int_acc 0 ds)
       end.
Proof.
  unfold Device_init, _get_type_and_id, re_match_device.
  destruct (strip_prefix "cpu" s) as [rest |] eqn:Hcpu.
  - intros H. exists rest. split.
    + left. split; [reflexivity |]. simpl in H.
      destruct (match_id rest) as [ds |]; simpl in H.
      * unfold int in H. destruct (within_int_limit E ds); simpl in H;
          [| discriminate]. now inversion H.
      * now inversion H.
    + simpl in H. destruct (match_id rest) as [ds |]; simpl in H.
      * unfold int in H. destruct (within_int_limit E ds); simpl in H;
          [| discriminate]. now inversion H.
      * now inversion H.
  - destruct (strip_prefix "cuda" s) as [rest |] eqn:Hcuda;
      [| discriminate].
    intros H. simpl in H.
    destruct (cuda_available E) eqn:Hav; simpl in H; [| discriminate].
    rewrite (cuda_available_backend Hav) in H.
    exists rest. destruct (match_id rest) as [ds |]; simpl in H.
    + unfold int in H. destruct (within_int_limit E ds); simpl in H;
        [| discriminate]. inversion H. simpl. split; [right |]; auto.
    + inversion H. simpl. split; [right |]; auto.
Qed.

(** X1.  A device built by the constructor is a host device bound to
    [numpy], or an accelerator device bound to [cupy] on a machine whose
    accelerator is available; its index, if it has one, is not
    negative. *)
Theorem Device_init_invariant (s : string) (d : Device) :
  Device_init E s = Ok d ->
  ((dev_type d = "cpu" /\ xp d = Some numpy)
   \/ (dev_type d = "cuda" /\ xp d = Some cupy /\ cuda_available E = true))
  /\ forall i, dev_id d = Some i -> 0 <= i.
Proof.
  intros H. destruct (Device_init_inv s d H) as [rest [Hkind Hid]].
  split.
  - destruct Hkind as [[_ [Ht Hx]] | [_ [Ht [Hx Hav]]]]; [left | right]; auto.
  - intros i Hi. destruct (match_id rest) as [ds |] eqn:Hm.
    + destruct Hid as [_ Hid]. rewrite Hid in Hi. inversion Hi. subst i.
      now apply (repr_int_of_index ds (match_id_is_index rest ds Hm)).
    + rewrite Hid in Hi. discriminate.
Qed.

(** ** Printing and parsing *)

Lemma Device_init_cuda_None :
  cuda_available E = true ->
  Device_init E "cuda:None" = Ok (mkDevice "cuda" None (Some cupy)).
Proof.
  intros H. unfold Device_init, _get_type_and_id. simpl.
  rewrite H. simpl. now rewrite (cuda_available_backend H).
Qed.

(** X2.  Printing and parsing round-trip: for a device built by the
    constructor that is an accelerator device, or a host device without
    an index, [str] succeeds and the constructor applied to the printed
    text gives the same device again. *)
Theorem Device_str_roundtrip (s : string) (d : Device) :
  Device_init E s = Ok d ->
  dev_type d = "cuda" \/ dev_id d = None ->
  exists t, Device__str__ E d = Ok t /\ Device_init E t = Ok d.
Proof.
  intros H Hshape. destruct (Device_init_inv s d H) as [rest [Hkind Hid]].
  destruct d as [ty id b]. simpl in *.
  destruct Hkind as [[_ [-> ->]] | [_ [-> [-> Hav]]]].
  - destruct Hshape as [Hty | ->]; [discriminate |].
    exists "cpu". split; reflexivity.
  - destruct (match_id rest) as [ds |] eqn:Hm.
    + destruct Hid as [Hlim ->].
      pose proof (match_id_is_index rest ds Hm) as Hidx.
      destruct (repr_int_of_index ds Hidx) as [Hidx' [Hval [Hlen _]]].
      exists ("cuda:" ++ repr_int (int_acc 0 ds)). split.
      * unfold Device__str__, id_suffix, format_dev_id. simpl.
        now rewrite (str_int_of_index ds Hidx Hlim).
      * rewrite (Device_init_cuda_index _ Hav Hidx'
                   (within_int_limit_shorter _ _ Hlen Hlim)).
        now rewrite Hval.
    + subst id. exists "cuda:None". split; [reflexivity |].
      now apply Device_init_cuda_None.
Qed.

(** X3.  [str] drops the index of a host device: a device built from
    [cpu:<index>] prints as [cpu], and parsing that text gives a device
    that does not compare equal to the original. *)
Theorem Device_str_drops_host_index (ds : string) :
  is_index ds = true ->
  within_int_limit E ds = true ->
  exists d d',
    Device_init E ("cpu:" ++ ds) = Ok d
    /\ Device__str__ E d = Ok "cpu"
    /\ Device_init E "cpu" = Ok d'
    /\ Device_eq d (VDevice d') = false.
Proof.
  intros H Hlim.
  exists (mkDevice "cpu" (Some (int_acc 0 ds)) (Some numpy)), cpu_device.
  split; [now apply Device_init_cpu_index |].
  repeat split.
Qed.

Lemma leading_digits_stop (ds : string) (c : ascii) (t : string) :
  all_digits ds = true ->
  is_digit c = false ->
  leading_digits (ds ++ String c t) = ds.
Proof.
  intros Hds Hc. induction ds as [| a ds IH]; simpl.
  - now rewrite Hc.
  - simpl in Hds. apply andb_true_iff in Hds as [Ha Hds].
    rewrite Ha. now rewrite IH.
Qed.

Lemma match_id_stop (ds : string) (c : ascii) (t : string) :
  is_index ds = true ->
  is_digit c = false ->
  match_id (String ":" (ds ++ String c t)) = Some ds.
Proof.
  unfold is_index. intros H Hc. apply andb_true_iff in H as [Hne Hds].
  simpl. rewrite (leading_digits_stop ds c t Hds Hc).
  destruct ds; [discriminate | reflexivity].
Qed.

Lemma match_id_no_colon (c : ascii) (t : string) :
  c <> ":"%char -> match_id (String c t) = None.
Proof.
  intros Hc. unfold match_id.
  destruct c as [[] [] [] [] [] [] [] []]; try reflexivity. now elim Hc.
Qed.

Lemma match_id_no_digit (c : ascii) (t : string) :
  is_digit c = false -> match_id (String ":" (String c t)) = None.
Proof. intros Hc. simpl. now rewrite Hc. Qed.

(** X4.  The descriptor is matched as a prefix: text after [cpu] or
    [cuda] that cannot start an index, and text after an index that is
    not a digit, is ignored, and the device is the one of the
    descriptor without that text. *)
Theorem Device_init_ignores_trailing_text (c : ascii) (t : string) :
  (c <> ":"%char ->
     Device_init E ("cpu" ++ String c t) = Device_init E "cpu"
     /\ Device_init E ("cuda" ++ String c t) = Device_init E "cuda")
  /\ (is_digit c = false ->
        Device_init E ("cpu:" ++ String c t) = Device_init E "cpu"
        /\ Device_init E ("cuda:" ++ String c t) = Device_init E "cuda"
        /\ forall ds, is_index ds = true ->
             Device_init E ("cpu:" ++ ds ++ String c t)
             = Device_init E ("cpu:" ++ ds)
             /\ Device_init E ("cuda:" ++ ds ++ String c t)
                = Device_init E ("cuda:" ++ ds)).
Proof.
  split.
  - intros Hc. unfold Device_init, _get_type_and_id, re_match_device.
    cbn [strip_prefix append Ascii.eqb Bool.eqb].
    now rewrite (match_id_no_colon c t Hc).
  - intros Hc. split; [| split].
    + unfold Device_init, _get_type_and_id, re_match_device.
      cbn [strip_prefix append Ascii.eqb Bool.eqb].
      now rewrite (match_id_no_digit c t Hc).
    + unfold Device_init, _get_type_and_id, re_match_device.
      cbn [strip_prefix append Ascii.eqb Bool.eqb].
      now rewrite (match_id_no_digit c t Hc).
    + intros ds Hds.
      unfold Device_init, _get_type_and_id.
      rewrite (re_match_cpu_index ds Hds), (re_match_cuda_index ds Hds).
      unfold re_match_device.
      cbn [strip_prefix append Ascii.eqb Bool.eqb].
      rewrite (match_id_stop ds c t Hds Hc). split; reflexivity.
Qed.

(** ** Failures of the constructor *)

Lemma cuda_prefix_not_cpu (s rest : string) :
  strip_prefix "cuda" s = Some rest -> strip_prefix "cpu" s = None.
Proof.
  destruct s as [| a [| b s]]; try discriminate.
  - cbn [strip_prefix]. destruct (Ascii.eqb "c" a); discriminate.
  - cbn [strip_prefix]. destruct (Ascii.eqb "c" a); [| discriminate].
    destruct (Ascii.eqb "u" b) eqn:Hb; [| discriminate].
    apply Ascii.eqb_eq in Hb. subst b. reflexivity.
Qed.

(** X5.  The constructor fails in three ways only.  It raises the
    unknown-device [ValueError] exactly on the strings that start with
    neither [cpu] nor [cuda]; it fails the availability assertion exactly
    on the strings that start with [cuda] when no accelerator is
    available; and any other failure is [int] refusing an index longer
    than the interpreter's limit. *)
Theorem Device_init_failures (s : string) :
  (Device_init E s = Err (ValueError ("Unknown device: " ++ s))
   <-> strip_prefix "cpu" s = None /\ strip_prefix "cuda" s = None)
  /\ (Device_init E s = Err (AssertionError "CUDA is not available.")
      <-> strip_prefix "cuda" s <> None /\ cuda_available E = false)
  /\ (forall e, Device_init E s = Err e ->
        e = ValueError ("Unknown device: " ++ s)
        \/ e = AssertionError "CUDA is not available."
        \/ exists ds, within_int_limit E ds = false
                      /\ e = int_limit_exceeded E ds).
Proof.
  unfold Device_init, _get_type_and_id, re_match_device.
  destruct (strip_prefix "cpu" s) as [rest |] eqn:Hcpu.
  - assert (Hcuda : strip_prefix "cuda" s = None).
    { destruct (strip_prefix "cuda" s) as [r |] eqn:Hc; [| reflexivity].
      rewrite (cuda_prefix_not_cpu s r Hc) in Hcpu. discriminate. }
    rewrite Hcuda. simpl.
    destruct (match_id rest) as [ds |]; simpl.
    + unfold int. destruct (within_int_limit E ds) eqn:Hlim; simpl.
      * repeat split; try discriminate; try (intros [H _]; discriminate).
        intros [H _]. now elim H.
      * repeat split; try discriminate; try (intros [H _]; discriminate).
        -- intros [H _]. now elim H.
        -- intros e [= <-]. right. right. now exists ds.
    + repeat split; try discriminate; try (intros [H _]; discriminate).
      intros [H _]. now elim H.
  - destruct (strip_prefix "cuda" s) as [rest |] eqn:Hcuda; simpl.
    + destruct (cuda_available E) eqn:Hav; simpl.
      * destruct (match_id rest) as [ds |]; simpl.
        -- unfold int. destruct (within_int_limit E ds) eqn:Hlim; simpl.
           ++ repeat split; try discriminate; try (intros [_ H]; discriminate).
           ++ repeat split; try discriminate; try (intros [_ H]; discriminate).
              intros e [= <-]. right. right. now exists ds.
        -- repeat split; try discriminate; try (intros [_ H]; discriminate).
      * repeat split; try discriminate; try (intros [_ H]; discriminate);
          try reflexivity.
        intros e [= <-]. right. now left.
    + repeat split; try discriminate; try reflexivity;
        try (intros [H _]; now elim H).
      intros e [= <-]. now left.
Qed.

(** ** Comparing devices *)

Lemma opt_int_eqb_sym (a b : option Z) : opt_int_eqb a b = opt_int_eqb b a.
Proof. destruct a, b; simpl; try reflexivity. apply Z.eqb_sym. Qed.

(** X6.  On devices, [__eq__] is an equivalence relation, and it does not
    look at the library a device is bound to. *)
Theorem Device_eq_equivalence (a b c : Device) :
  Device_eq a (VDevice a) = true
  /\ Device_eq a (VDevice b) = Device_eq b (VDevice a)
  /\ (Device_eq a (VDevice b) = true -> Device_eq b (VDevice c) = true ->
      Device_eq a (VDevice c) = true)
  /\ (forall x,
        Device_eq a (VDevice (mkDevice (dev_type b) (dev_id b) x))
        = Device_eq a (VDevice b)).
Proof.
  unfold Device_eq. repeat split.
  - rewrite String.eqb_refl.
    destruct (dev_id a); simpl; [apply Z.eqb_refl | reflexivity].
  - now rewrite String.eqb_sym, opt_int_eqb_sym.
  - intros Hab Hbc.
    apply andb_true_iff in Hab as [Ht1 Hi1].
    apply andb_true_iff in Hbc as [Ht2 Hi2].
    apply String.eqb_eq in Ht1, Ht2. apply opt_int_eqb_eq in Hi1, Hi2.
    apply andb_true_iff. split.
    + apply String.eqb_eq. congruence.
    + apply opt_int_eqb_eq. congruence.
Qed.

(** ** Moving to an indexed host device *)

(** X7.  [move_to_device] takes its host branch only for the host device
    without an index.  A host device that carries an index, such as the
    one [cpu:0] parses to, is treated as an accelerator: the array is
    handed to [cupy.asarray] when an accelerator is available, and the
    availability assertion fails otherwise. *)
Theorem move_to_indexed_host_device
    (data : array) (device : Device) (i : Z) (s : state W) :
  dev_type device = "cpu" ->
  dev_id device = Some i ->
  move_to_device E data device s =
  if cuda_available E then lift (cupy_asarray data) s
  else (Err (AssertionError "CUDA is not available."), s).
Proof.
  intros Ht Hi. unfold move_to_device, bind, pure.
  change (Device_init E "cpu") with (Ok cpu_device). cbv beta iota.
  unfold Device_eq. rewrite Hi. simpl opt_int_eqb.
  rewrite andb_false_r. destruct (cuda_available E); reflexivity.
Qed.

(** ** Listing and selecting devices *)

Lemma cuda_descriptors_within (ordinals : list Z) :
  (forall i, In i ordinals -> str_int E i = Ok (repr_int i)) ->
  cuda_descriptors E ordinals
  = Ok (map (fun i => "cuda:" ++ repr_int i) ordinals).
Proof.
  induction ordinals as [| i rest IH]; intros H; simpl; [reflexivity |].
  rewrite (H i) by now left. simpl.
  rewrite IH by (intros j Hj; apply H; now right). reflexivity.
Qed.

Lemma cuda_descriptors_shape (ordinals : list Z) (l : list string) :
  cuda_descriptors E ordinals = Ok l ->
  forall x, In x l -> exists t, x = "cuda:" ++ t.
Proof.
  revert l. induction ordinals as [| i rest IH]; intros l; simpl.
  - intros [= <-] x [].
  - destruct (str_int E i) as [t | e]; simpl; [| discriminate].
    destruct (cuda_descriptors E rest) as [ts | e]; simpl; [| discriminate].
    intros [= <-] x [<- | Hx]; [now exists t | now apply (IH ts)].
Qed.

Lemma in_range (n i : Z) : In i (range n) <-> 0 <= i < n.
Proof.
  unfold range. rewrite in_map_iff. split.
  - intros [k [<- Hk]]. apply in_seq in Hk. lia.
  - intros H. exists (Z.to_nat i). split; [lia |]. apply in_seq. lia.
Qed.

(** A successful listing is [cpu] followed by descriptors that start
    with [cuda:]. *)
Lemma available_devices_shape (c : result Z) (devices : list string) :
  get_available_devices E c = Ok devices ->
  exists rest,
    devices = "cpu" :: rest
    /\ forall x, In x rest -> exists t, x = "cuda:" ++ t.
Proof.
  unfold get_available_devices. destruct (_CUDA_BACKEND E).
  - destruct c as [n | e]; simpl; [| discriminate].
    destruct (cuda_descriptors E (range n)) as [l |] eqn:Hl; simpl;
      [| discriminate].
    intros [= <-]. exists l. split; [reflexivity |].
    now apply (cuda_descriptors_shape (range n)).
  - intros [= <-]. exists []. split; [reflexivity |]. intros x [].
Qed.

(** X8.  [get_available_devices] lists the host first and always.
    Without [cupy] it lists nothing else and does not ask for the device
    count.  With [cupy] it appends [cuda:0] to [cuda:n-1] for a count
    [n] (nothing for a count of zero or less), provided each ordinal
    prints within the interpreter's digit limit, and it fails as the
    count query fails. *)
Theorem get_available_devices_listing :
  (cupy_imported E = false ->
     forall c, get_available_devices E c = Ok ["cpu"])
  /\ (cupy_imported E = true ->
        (forall n,
           (forall i, 0 <= i < n ->
              within_int_limit E (repr_int i) = true) ->
           get_available_devices E (Ok n)
           = Ok ("cpu" :: map (fun i => "cuda:" ++ repr_int i) (range n)))
        /\ (forall n, n <= 0 -> get_available_devices E (Ok n) = Ok ["cpu"])
        /\ (forall e, get_available_devices E (Err e) = Err e)).
Proof.
  unfold get_available_devices, _CUDA_BACKEND. split.
  - intros H c. now rewrite H.
  - intros H. rewrite H. repeat split.
    + intros n Hn. simpl.
      rewrite cuda_descriptors_within; [reflexivity |].
      intros i Hi. apply in_range in Hi. unfold str_int.
      rewrite Z.abs_eq by lia. now rewrite (Hn i Hi).
    + intros n Hn. simpl. unfold range.
      replace (Z.to_nat n) with 0%nat by lia. reflexivity.
Qed.

Lemma str_in_false (device : string) (devices : list string) :
  (forall x, In x devices -> x <> device) -> str_in device devices = false.
Proof.
  intros H. unfold str_in.
  destruct (existsb (String.eqb device) devices) eqn:Hex; [| reflexivity].
  apply existsb_exists in Hex as [x [Hx Heq]].
  apply String.eqb_eq in Heq. subst x. now elim (H device Hx).
Qed.

(** X9.  When the descriptor is not among the listed devices,
    [set_nn_device] selects the host device, prints one line saying so,
    and leaves the libraries' state as it was. *)
Theorem set_nn_device_fallback
    (c : result Z) (device : string) (devices : list string) (s : state W) :
  get_available_devices E c = Ok devices ->
  str_in device devices = false ->
  set_nn_device E c device s
  = (Ok [">>> " ++ device ++ " is not available, Using CPU as default ..."],
     mkState cpu_device (world s)).
Proof.
  intros Hl Hin. unfold set_nn_device, bind, pure.
  now rewrite Hl, Hin.
Qed.

(** X10.  A descriptor other than [cpu] that does not start with [cuda:]
    is never selected, whatever the machine has: [set_nn_device] either
    fails as the listing fails, leaving the state as it was, or falls
    back to the host device.  This holds for [cuda] itself. *)
Theorem set_nn_device_needs_ordinal
    (c : result Z) (device : string) (s : state W) :
  device <> "cpu" ->
  strip_prefix "cuda:" device = None ->
  (exists e, get_available_devices E c = Err e
             /\ set_nn_device E c device s = (Err e, s))
  \/ set_nn_device E c device s
     = (Ok [not_available_line device], mkState cpu_device (world s)).
Proof.
  intros Hcpu Hcuda.
  destruct (get_available_devices E c) as [devices | e] eqn:Hl.
  - right. destruct (available_devices_shape c devices Hl) as [rest [-> Hrest]].
    unfold set_nn_device, bind, pure. rewrite Hl.
    rewrite str_in_false; [reflexivity |].
    intros x [<- | Hx]; [congruence |].
    destruct (Hrest x Hx) as [t ->]. intros <-.
    simpl in Hcuda. discriminate.
  - left. exists e. split; [reflexivity |].
    unfold set_nn_device, bind, pure. now rewrite Hl.
Qed.


(** ** The operator's fields *)

(** X12.  Saving to and retrieving from the cache never change the
    library an operator is bound to or its keyword configuration; for a
    fresh operator the library is the one of its device. *)
Theorem cache_calls_keep_fields
    (device : Device) (kw : list (string * Any)) (self : Op)
    (h : list cache_call) :
  op_xp (do_calls self h) = op_xp self
  /\ kwargs (do_calls self h) = kwargs self
  /\ op_xp (do_calls (Op_init device kw) h) = xp device
  /\ kwargs (do_calls (Op_init device kw) h) = kw.
Proof.
  assert (Hkeep : forall o : Op,
             op_xp (do_calls o h) = op_xp o
             /\ kwargs (do_calls o h) = kwargs o).
  { unfold do_calls. induction h as [| c h IH]; intros o; [now split |].
    simpl. destruct (IH (do_call o c)) as [Hx Hk]. rewrite Hx, Hk.
    destruct c as [args |]; simpl; [now split |].
    unfold retrieve_from_cache. destruct (_cache o); now split. }
  destruct (Hkeep self) as [Hx Hk].
  destruct (Hkeep (Op_init device kw)) as [Hx' Hk'].
  repeat split; assumption.
Qed.

(** ** Fans *)

(** X13.  Exchanging the first two dimensions of a shape exchanges its
    fans. *)
Theorem fan_transpose (d0 d1 : Z) (ks : list Z) (fan_in fan_out : Z) :
  _calculate_fan_in_and_fan_out E (d0 :: d1 :: ks) = Ok (fan_in, fan_out) ->
  _calculate_fan_in_and_fan_out E (d1 :: d0 :: ks) = Ok (fan_out, fan_in).
Proof.
  destruct ks as [| k0 [| k1 [| k2 [| k3 ks]]]];
    try (unfold _calculate_fan_in_and_fan_out, kernel_prod; simpl;
         intros H; now inversion H).
  rewrite fan_undefined by (simpl; lia).
  destruct (str_tuple E (d0 :: d1 :: k0 :: k1 :: k2 :: k3 :: ks));
    discriminate.
Qed.

(** X14.  For a shape with 1 to 3 kernel dimensions after the first two,
    the fan-in is the second dimension times the product of the kernel
    dimensions and the fan-out is the first dimension times that
    product, whereas for a 2-D shape the fan-in is the first dimension
    and the fan-out the second: a 2-D shape and the same shape with a
    trailing unit axis get opposite fans. *)
Theorem fan_of_kernel_shape (d0 d1 k0 : Z) (ks : list Z) :
  (List.length ks <= 2)%nat ->
  _calculate_fan_in_and_fan_out E (d0 :: d1 :: k0 :: ks)
  = Ok (d1 * fold_right Z.mul 1 (k0 :: ks),
        d0 * fold_right Z.mul 1 (k0 :: ks))
  /\ _calculate_fan_in_and_fan_out E [d0; d1] = Ok (d0, d1)
  /\ _calculate_fan_in_and_fan_out E [d0; d1; 1] = Ok (d1, d0).
Proof.
  intros Hlen. unfold _calculate_fan_in_and_fan_out, kernel_prod.
  repeat split.
  - destruct ks as [| k1 [| k2 [| k3 ks]]];
      try (simpl in Hlen; lia);
      cbn [List.length Nat.eqb existsb orb nth skipn fold_left fold_right];
      apply f_equal; apply f_equal2; ring.
  - cbn [List.length Nat.eqb existsb orb nth skipn fold_left].
    apply f_equal; apply f_equal2; ring.
Qed.

(** ** The other factories and the mode check *)

(** X15.  [uniform_like] and [randint_like] draw with the shape, device
    and dtype of the tensor they are given: on a host device the only
    draw is the library's [uniform], respectively [randint], over the
    shape of [x]; [uniform_like] casts the draw to the dtype of [x],
    while [randint_like] passes the dtype to the library and does not
    cast. *)
Theorem like_factories_on_host
    (x : Tensor) (req_grad : bool) (s s1 : state W)
    (dev : Device) (dt : DType) (b : backend) :
  _parse_factory_kwargs
    (Some (IsDevice (Tensor_device x))) (Some (Tensor_dtype x)) s
  = (Ok (dev, dt), s1) ->
  dev_type dev = "cpu" ->
  xp dev = Some b ->
  (forall low high,
     uniform_like E x low high req_grad s =
     (a <- lift (xp_random_uniform b low high (Tensor_shape x)) ;;
      a' <- lift (array_astype a dt) ;;
      Tensor_init a' req_grad) s1)
  /\ (forall low high,
        randint_like E x low high req_grad s =
        (a <- lift (xp_random_randint b low high (Tensor_shape x) dt) ;;
         Tensor_init a req_grad) s1).
Proof.
  intros Hkw Hcpu Hxp. split; intros low high.
  - unfold uniform_like. now apply uniform_on_host with (dev := dev).
  - unfold randint_like. now apply randint_on_host with (dev := dev).
Qed.

Lemma mode_ok_false (mode : string) :
  mode <> "fan_in" -> mode <> "fan_out" -> mode_ok mode = false.
Proof.
  intros H1 H2. unfold mode_ok.
  destruct (String.eqb_spec mode "fan_in"); [contradiction |].
  destruct (String.eqb_spec mode "fan_out"); [contradiction |].
  reflexivity.
Qed.

(** X16.  The kaiming initialisers check the mode first: under a mode
    other than [fan_in] and [fan_out] (the comparison is exact, so
    [FAN_IN] is refused) both raise the [ValueError] about the mode for
    every shape, valid or not, and leave the state as it was. *)
Theorem kaiming_mode_checked_first
    (shape : list Z) (mode : string) (req_grad : bool) (s : state W) :
  mode <> "fan_in" ->
  mode <> "fan_out" ->
  kaiming_uniform E shape mode req_grad s
  = (Err (ValueError "mode must be either 'fan_in' or 'fan_out'."), s)
  /\ kaiming_normal E shape mode req_grad s
     = (Err (ValueError "mode must be either 'fan_in' or 'fan_out'."), s).
Proof.
  intros H1 H2. unfold kaiming_uniform, kaiming_normal.
  rewrite (mode_ok_false mode H1 H2). split; reflexivity.
Qed.

(** ** Printing constructed devices *)

Lemma string_append_assoc (a b c : string) :
  (a ++ b) ++ c = a ++ b ++ c.
Proof. induction a as [| x a IH]; simpl; [reflexivity | now rewrite IH]. Qed.

(** The suffix of a constructed device can always be printed. *)
Lemma id_suffix_constructed (s : string) (d : Device) :
  Device_init E s = Ok d -> exists suffix, id_suffix E d = Ok suffix.
Proof.
  intros H. destruct (Device_init_inv s d H) as [rest [Hkind Hid]].
  unfold id_suffix.
  destruct Hkind as [[_ [Ht _]] | [_ [Ht _]]]; rewrite Ht; simpl.
  - now exists "".
  - destruct (match_id rest) as [ds |] eqn:Hm.
    + destruct Hid as [Hlim Hid]. rewrite Hid. simpl.
      rewrite (str_int_of_index ds (match_id_is_index rest ds Hm) Hlim).
      simpl. now eexists.
    + rewrite Hid. simpl. now eexists.
Qed.

(** X17.  On a device built by the constructor, [str] and [repr] both
    succeed, and [repr] is [str] between [device('] and [')]. *)
Theorem Device_repr_wraps_str (s : string) (d : Device) :
  Device_init E s = Ok d ->
  exists t,
    Device__str__ E d = Ok t
    /\ Device__repr__ E d = Ok ("device('" ++ t ++ "')").
Proof.
  intros H. destruct (id_suffix_constructed s d H) as [suffix Hs].
  exists (dev_type d ++ suffix).
  unfold Device__str__, Device__repr__. rewrite Hs. simpl.
  split; [reflexivity |]. now rewrite string_append_assoc.
Qed.

(** ** Listed devices can be constructed *)

Lemma repr_int_nonneg (i : Z) :
  0 <= i ->
  is_index (repr_int i) = true /\ int_acc 0 (repr_int i) = i.
Proof.
  intros Hi. rewrite <- (Z2N.id i Hi). rewrite repr_int_of_N.
  split.
  - unfold is_index. rewrite uint_all_digits, andb_true_r.
    destruct (Z.to_N i) as [| p]; [reflexivity |]. simpl.
    pose proof (DecimalPos.Unsigned.to_uint_nonnil p) as Hn.
    destruct (Pos.to_uint p); try reflexivity. now elim Hn.
  - rewrite int_acc_uint. f_equal.
    change (Pos.of_uint (N.to_uint (Z.to_N i)))
      with (N.of_uint (N.to_uint (Z.to_N i))).
    apply DecimalN.Unsigned.of_to.
Qed.

Lemma cuda_descriptors_inv (ordinals : list Z) (l : list string) :
  cuda_descriptors E ordinals = Ok l ->
  forall x, In x l ->
    exists i, In i ordinals /\ x = "cuda:" ++ repr_int i
              /\ within_int_limit E (repr_int (Z.abs i)) = true.
Proof.
  revert l. induction ordinals as [| i rest IH]; intros l; simpl.
  - intros [= <-] x [].
  - unfold str_int at 1.
    destruct (within_int_limit E (repr_int (Z.abs i))) eqn:Hlim; simpl;
      [| discriminate].
    destruct (cuda_descriptors E rest) as [ts | e]; simpl; [| discriminate].
    intros [= <-] x [<- | Hx].
    + exists i. repeat split; auto.
    + destruct (IH ts eq_refl x Hx) as [j [Hj Hrest]].
      exists j. split; [now right | exact Hrest].
Qed.

(** X18.  On a machine whose accelerator is available, every descriptor
    that [get_available_devices] lists is accepted by the constructor,
    and the device it gives prints back as that descriptor. *)
Theorem listed_devices_construct
    (c : result Z) (devices : list string) (x : string) :
  cuda_available E = true ->
  get_available_devices E c = Ok devices ->
  In x devices ->
  exists d, Device_init E x = Ok d /\ Device__str__ E d = Ok x.
Proof.
  intros Hav Hl Hx. unfold get_available_devices in Hl.
  rewrite (cuda_available_backend Hav) in Hl.
  destruct c as [n | e]; simpl in Hl; [| discriminate].
  destruct (cuda_descriptors E (range n)) as [l |] eqn:Hdesc; simpl in Hl;
    [| discriminate].
  injection Hl as <-. destruct Hx as [<- | Hx].
  - exists cpu_device. split; reflexivity.
  - destruct (cuda_descriptors_inv (range n) l Hdesc x Hx)
      as [i [Hi [-> Hlim]]].
    apply in_range in Hi. rewrite Z.abs_eq in Hlim by lia.
    destruct (repr_int_nonneg i) as [Hidx Hval]; [lia |].
    exists (mkDevice "cuda" (Some i) (Some cupy)). split.
    + rewrite (Device_init_cuda_index _ Hav Hidx Hlim). now rewrite Hval.
    + unfold Device__str__, id_suffix, format_dev_id, str_int. simpl.
      rewrite Z.abs_eq by lia. now rewrite Hlim.
Qed.

End Properties.

(** * The properties on concrete inputs

    The statements above, applied to the reference library, and the
    inputs on which the code departs from the specification's wording. *)

Lemma ref_rand_takes_integers (E : Env) :
  rand_takes_integers (L := ref_library E).
Proof.
  intros b args w [t Hin]. simpl. unfold Ref.xp_random_rand.
  assert (Hdims : Ref.int_dims args = None).
  { induction args as [| a args IH]; [destruct Hin |].
    destruct Hin as [-> | Hin]; [reflexivity |].
    destruct a as [d | t']; [| reflexivity].
    simpl. now rewrite (IH Hin). }
  rewrite Hdims. now eexists; eexists.
Qed.

(** C1 on a concrete history: save, retrieve, save again. *)
Lemma cache_single_use_witness :
  let h :=
    [Save (L := host_library) [1; 2]; Retrieve; Save (L := host_library) [3]]
  in
  let self := do_calls (L := host_library)
                (Op_init cpu_device []) h in
  last h Retrieve = Save (L := host_library) [3]
  /\ exists self',
       retrieve_from_cache self = (Ok [3], self')
       /\ _cache self' = None
       /\ retrieve_from_cache self' = (Err (AssertionError ""), self').
Proof.
  intros h self. split; [reflexivity |].
  apply (proj2 (cache_single_use (L := host_library)
                  cpu_device [] h)).
  reflexivity.
Defined.

(** C2 as stated fails: [cpu:0] is none of [cpu], [cuda], [cuda:<index>],
    yet it parses, to the host device with index 0. *)
Lemma parse_accepts_cpu_index :
  descriptor_form "cpu:0" = false
  /\ parse_device Ref.host_only (IsStr "cpu:0")
     = Ok (mkDevice "cpu" (Some 0) (Some numpy)).
Proof. split; reflexivity. Qed.

Lemma parse_device_descriptors_witness :
  cuda_available Ref.with_cuda = true
  /\ is_index "12" = true
  /\ within_int_limit Ref.with_cuda "12" = true
  /\ parse_device Ref.with_cuda (IsStr "cuda:12")
     = Ok (mkDevice "cuda" (Some 12) (Some cupy)).
Proof.
  split; [reflexivity |]. split; [reflexivity |]. split; [reflexivity |].
  destruct (parse_device_descriptors Ref.with_cuda) as [_ [_ [Hcuda _]]].
  destruct (Hcuda eq_refl) as [_ Hindex].
  exact (Hindex "12" eq_refl eq_refl).
Defined.

(** C4 as stated fails: on the empty string [select_device] returns the
    host device, where parsing the empty string raises. *)
Lemma select_empty_string_is_host :
  select_device Ref.host_only (Some (IsStr "")) = Ok cpu_device
  /\ parse_device Ref.host_only (IsStr "")
     = Err (ValueError "Unknown device: ").
Proof. split; reflexivity. Qed.

Lemma select_device_cases_witness :
  "cpu:3" <> ""
  /\ select_device Ref.host_only (Some (IsStr "cpu:3"))
     = parse_device Ref.host_only (IsStr "cpu:3").
Proof.
  assert (Hne : "cpu:3" <> "") by discriminate.
  split; [exact Hne |].
  destruct (select_device_cases Ref.host_only) as [_ [Hstr _]].
  exact (Hstr "cpu:3" Hne).
Defined.

Lemma cpu_context_is_noop_witness :
  dev_type cpu_device = "cpu"
  /\ Device__enter__ (L := host_library)
       Ref.host_only cpu_device Ref.start = (Ok None, Ref.start)
  /\ Device__exit__ (L := host_library)
       Ref.host_only cpu_device (Some (ValueError "")) Ref.start
     = (Ok None, Ref.start).
Proof.
  split; [reflexivity |].
  apply (cpu_context_is_noop (L := host_library)
           Ref.host_only cpu_device (Some (ValueError "")) Ref.start).
  reflexivity.
Defined.

(** [kaiming_normal] on shape (8, 3): the fan is 8, and the scale of the
    draw is (2/8)**5 = 1/1024. *)
Example kaiming_normal_8_3 :
  kaiming_normal (L := host_library) Ref.host_only
    [8; 3] "fan_in" false Ref.start
  = (Ok (Ref.Normal 0 (1 # 1024) [8; 3], Ref.float32, false),
     mkState cpu_device 1%nat).
Proof. reflexivity. Qed.

Lemma kaiming_normal_std_witness :
  (2 <= List.length [8; 3] <= 5)%nat
  /\ mode_ok "fan_in" = true
  /\ Ref.truediv (Ref.num_of_int 2) (Ref.num_of_int 8) = Ok (1 # 4)%Q
  /\ Ref.pow (1 # 4)%Q (Ref.num_of_int 5) = Ok (1 # 1024)%Q
  /\ kaiming_normal (L := host_library) Ref.host_only
       [8; 3] "fan_in" false Ref.start =
     (a <- lift (Ref.xp_random_normal numpy 0%Q (1 # 1024)%Q [8; 3]) ;;
      a' <- lift (Ref.array_astype a Ref.float32) ;;
      Ref.Tensor_init a' false) Ref.start.
Proof.
  assert (Hlen : (2 <= List.length [8; 3] <= 5)%nat) by (simpl; lia).
  split; [exact Hlen |]. split; [reflexivity |].
  split; [reflexivity |]. split; [reflexivity |].
  destruct (kaiming_normal_std (L := host_library) Ref.host_only
              [8; 3] "fan_in" false Ref.start Hlen eq_refl)
    as [fan_in [fan_out [Hfan [_ [Hdraw _]]]]].
  change (_calculate_fan_in_and_fan_out Ref.host_only [8; 3])
    with (Ok (8, 3)) in Hfan.
  injection Hfan as <- <-.
  exact (proj2 (Hdraw (1 # 4)%Q (1 # 1024)%Q cpu_device Ref.float32
                  Ref.start eq_refl eq_refl eq_refl)
           numpy eq_refl eq_refl).
Defined.

(** [rand] on shape (2, 3) with the reference library: the library call
    raises, and no draw is made. *)
Example rand_2_3 :
  rand (L := host_library) Ref.host_only [2; 3] None None false Ref.start
  = (Err (TypeError "'tuple' object cannot be interpreted as an integer"),
     Ref.start).
Proof. reflexivity. Qed.

Lemma rand_always_raises_witness :
  rand_takes_integers (L := host_library)
  /\ exists e s',
       rand (L := host_library) Ref.host_only
         [2; 3] None None false Ref.start = (Err e, s').
Proof.
  split; [apply ref_rand_takes_integers |].
  destruct (proj1 (rand_always_raises (L := host_library)
                     Ref.host_only (ref_rand_takes_integers Ref.host_only))
              [2; 3] None None false Ref.start) as [e [s' [Hrand _]]].
  now exists e, s'.
Defined.

(** [randn_like] with [var = 3] on a 2x2 tensor: the draw has scale 3. *)
Example randn_like_var_3 :
  randn_like (L := host_library) Ref.host_only
    (Ref.Rand [2; 2], Ref.float64, false) 0%Q 3%Q false Ref.start
  = (Ok (Ref.Normal 0 3 [2; 2], Ref.float32, false),
     mkState cpu_device 1%nat).
Proof. reflexivity. Qed.

Lemma randn_like_var_is_scale_witness :
  let x : Tensor (Library := host_library) :=
    (Ref.Rand [2; 2], Ref.float64, false) in
  _parse_factory_kwargs (Library := host_library)
    (Some (IsDevice (Tensor_device x))) (Some (Tensor_dtype x)) Ref.start
  = (Ok (cpu_device, Ref.float64), Ref.start)
  /\ randn_like (L := host_library) Ref.host_only
       x 0%Q 3%Q false Ref.start =
     (a <- lift (Ref.xp_random_normal numpy 0%Q 3%Q [2; 2]) ;;
      a' <- lift (Ref.array_astype a Ref.float64) ;;
      Ref.Tensor_init a' false) Ref.start.
Proof.
  intros x. split; [reflexivity |].
  apply (proj2 (randn_like_var_is_scale (L := host_library)
                  Ref.host_only x 0%Q 3%Q false Ref.start Ref.start
                  cpu_device Ref.float64 eq_refl) numpy);
    reflexivity.
Defined.

(** A one-dimensional shape whose dimension has 4301 digits, under the
    default limit of 4300: printing the shape for the message fails, and
    the error is the interpreter's. *)
Example fan_of_unprintable_dimension :
  _calculate_fan_in_and_fan_out Ref.host_only [10 ^ 4300]
  = Err (str_limit_exceeded Ref.host_only).
Proof. vm_compute. reflexivity. Qed.

Lemma initialisers_need_2_to_5_dims_witness :
  (List.length [7] < 2 \/ 5 < List.length [7])%nat
  /\ (forall z, In z [7] -> str_int Ref.host_only z = Ok (repr_int z))
  /\ _calculate_fan_in_and_fan_out Ref.host_only [7]
     = Err (ValueError
              "Tensor with dims (7,) is not supported. Must be at least 2D.")
  /\ xavier_uniform (L := host_library) Ref.host_only
       [7] 1%Q false Ref.start
     = (Err (ValueError
               "Tensor with dims (7,) is not supported. Must be at least 2D."),
        Ref.start).
Proof.
  assert (Hlen : (List.length [7] < 2 \/ 5 < List.length [7])%nat)
    by (left; simpl; lia).
  assert (Hall : forall z, In z [7] ->
                   str_int Ref.host_only z = Ok (repr_int z))
    by (intros z [<- | []]; reflexivity).
  split; [exact Hlen |]. split; [exact Hall |].
  destruct (proj2 (initialisers_need_2_to_5_dims
                     (L := host_library) Ref.host_only [7]) Hlen)
    as [msg [Hfan [Hmsg [_ Hinit]]]].
  rewrite (Hmsg Hall) in Hfan, Hinit.
  split; [exact Hfan |].
  exact (proj1 (Hinit 1%Q "fan_in" false Ref.start)).
Defined.

(** ** The further properties on concrete inputs *)

Lemma Device_init_invariant_witness :
  Device_init Ref.with_cuda "cuda:12"
  = Ok (mkDevice "cuda" (Some 12) (Some cupy))
  /\ cuda_available Ref.with_cuda = true
  /\ 0 <= 12.
Proof.
  assert (H : Device_init Ref.with_cuda "cuda:12"
              = Ok (mkDevice "cuda" (Some 12) (Some cupy))) by reflexivity.
  split; [exact H |].
  destruct (Device_init_invariant Ref.with_cuda _ _ H) as [Hkind Hid].
  split; [| exact (Hid 12 eq_refl)].
  destruct Hkind as [[Ht _] | [_ [_ Hav]]]; [discriminate Ht | exact Hav].
Defined.

Lemma Device_str_roundtrip_witness :
  Device_init Ref.with_cuda "cuda:007"
  = Ok (mkDevice "cuda" (Some 7) (Some cupy))
  /\ exists t,
       Device__str__ Ref.with_cuda (mkDevice "cuda" (Some 7) (Some cupy))
       = Ok t
       /\ Device_init Ref.with_cuda t
          = Ok (mkDevice "cuda" (Some 7) (Some cupy)).
Proof.
  assert (H : Device_init Ref.with_cuda "cuda:007"
              = Ok (mkDevice "cuda" (Some 7) (Some cupy))) by reflexivity.
  split; [exact H |].
  apply (Device_str_roundtrip Ref.with_cuda _ _ H). now left.
Defined.

Lemma Device_str_drops_host_index_witness :
  is_index "3" = true
  /\ within_int_limit Ref.host_only "3" = true
  /\ exists d d',
       Device_init Ref.host_only "cpu:3" = Ok d
       /\ Device__str__ Ref.host_only d = Ok "cpu"
       /\ Device_init Ref.host_only "cpu" = Ok d'
       /\ Device_eq d (VDevice d') = false.
Proof.
  split; [reflexivity |]. split; [reflexivity |].
  exact (Device_str_drops_host_index Ref.host_only "3" eq_refl eq_refl).
Defined.

Lemma Device_init_ignores_trailing_text_witness :
  "x"%char <> ":"%char
  /\ Device_init Ref.host_only "cpux" = Device_init Ref.host_only "cpu".
Proof.
  assert (Hc : "x"%char <> ":"%char) by discriminate.
  split; [exact Hc |].
  exact (proj1 (proj1 (Device_init_ignores_trailing_text
                         Ref.host_only "x"%char "") Hc)).
Defined.

Lemma move_to_indexed_host_device_witness :
  dev_type (mkDevice "cpu" (Some 0) (Some numpy)) = "cpu"
  /\ dev_id (mkDevice "cpu" (Some 0) (Some numpy)) = Some 0
  /\ move_to_device (L := host_library) Ref.host_only
       (Ref.Rand [2]) (mkDevice "cpu" (Some 0) (Some numpy)) Ref.start
     = (Err (AssertionError "CUDA is not available."), Ref.start).
Proof.
  split; [reflexivity |]. split; [reflexivity |].
  exact (move_to_indexed_host_device (L := host_library) Ref.host_only
           (Ref.Rand [2]) (mkDevice "cpu" (Some 0) (Some numpy)) 0 Ref.start
           eq_refl eq_refl).
Defined.

Lemma get_available_devices_listing_witness :
  cupy_imported Ref.with_cuda = true
  /\ (forall i, 0 <= i < 2 ->
        within_int_limit Ref.with_cuda (repr_int i) = true)
  /\ get_available_devices Ref.with_cuda (Ok 2)
     = Ok ["cpu"; "cuda:0"; "cuda:1"].
Proof.
  assert (Hall : forall i, 0 <= i < 2 ->
            within_int_limit Ref.with_cuda (repr_int i) = true).
  { intros i Hi. assert (Hcases : i = 0 \/ i = 1) by lia.
    destruct Hcases as [-> | ->]; reflexivity. }
  split; [reflexivity |]. split; [exact Hall |].
  exact (proj1 (proj2 (get_available_devices_listing Ref.with_cuda) eq_refl)
           2 Hall).
Defined.

Lemma set_nn_device_fallback_witness :
  get_available_devices Ref.with_cuda (Ok 2) = Ok ["cpu"; "cuda:0"; "cuda:1"]
  /\ str_in "cuda:5" ["cpu"; "cuda:0"; "cuda:1"] = false
  /\ set_nn_device (L := host_library) Ref.with_cuda (Ok 2) "cuda:5" Ref.start
     = (Ok [">>> cuda:5 is not available, Using CPU as default ..."],
        mkState cpu_device 0%nat).
Proof.
  split; [reflexivity |]. split; [reflexivity |].
  exact (set_nn_device_fallback (L := host_library) Ref.with_cuda
           (Ok 2) "cuda:5" ["cpu"; "cuda:0"; "cuda:1"] Ref.start
           eq_refl eq_refl).
Defined.

Lemma set_nn_device_needs_ordinal_witness :
  "cuda" <> "cpu"
  /\ strip_prefix "cuda:" "cuda" = None
  /\ ((exists e, get_available_devices Ref.with_cuda (Ok 2) = Err e
                 /\ set_nn_device (L := host_library) Ref.with_cuda
                      (Ok 2) "cuda" Ref.start = (Err e, Ref.start))
      \/ set_nn_device (L := host_library) Ref.with_cuda
           (Ok 2) "cuda" Ref.start
         = (Ok [not_available_line "cuda"], mkState cpu_device 0%nat)).
Proof.
  assert (Hne : "cuda" <> "cpu") by discriminate.
  split; [exact Hne |]. split; [reflexivity |].
  exact (set_nn_device_needs_ordinal (L := host_library) Ref.with_cuda
           (Ok 2) "cuda" Ref.start Hne eq_refl).
Defined.


Lemma fan_transpose_witness :
  _calculate_fan_in_and_fan_out Ref.host_only [16; 3; 5; 5] = Ok (75, 400)
  /\ _calculate_fan_in_and_fan_out Ref.host_only [3; 16; 5; 5]
     = Ok (400, 75).
Proof.
  split; [reflexivity |].
  exact (fan_transpose Ref.host_only 16 3 [5; 5] 75 400 eq_refl).
Defined.

Lemma fan_of_kernel_shape_witness :
  (List.length [5] <= 2)%nat
  /\ _calculate_fan_in_and_fan_out Ref.host_only [16; 3; 5; 5]
     = Ok (3 * fold_right Z.mul 1 [5; 5], 16 * fold_right Z.mul 1 [5; 5]).
Proof.
  assert (Hlen : (List.length [5] <= 2)%nat) by (simpl; lia).
  split; [exact Hlen |].
  exact (proj1 (fan_of_kernel_shape Ref.host_only 16 3 5 [5] Hlen)).
Defined.

Lemma like_factories_on_host_witness :
  let x : Tensor (Library := host_library) :=
    (Ref.Rand [2; 2], Ref.int64, false) in
  _parse_factory_kwargs (Library := host_library)
    (Some (IsDevice (Tensor_device x))) (Some (Tensor_dtype x)) Ref.start
  = (Ok (cpu_device, Ref.int64), Ref.start)
  /\ dev_type cpu_device = "cpu"
  /\ xp cpu_device = Some numpy
  /\ randint_like (L := host_library) Ref.host_only x 0 10 false Ref.start =
     (a <- lift (Ref.xp_random_randint numpy 0 10 [2; 2] Ref.int64) ;;
      Ref.Tensor_init a false) Ref.start.
Proof.
  intros x. split; [reflexivity |]. split; [reflexivity |].
  split; [reflexivity |].
  exact (proj2 (like_factories_on_host (L := host_library) Ref.host_only
                  x false Ref.start Ref.start cpu_device Ref.int64 numpy
                  eq_refl eq_refl eq_refl) 0 10).
Defined.

Lemma kaiming_mode_checked_first_witness :
  "FAN_IN" <> "fan_in"
  /\ "FAN_IN" <> "fan_out"
  /\ kaiming_normal (L := host_library) Ref.host_only
       [8; 3] "FAN_IN" false Ref.start
     = (Err (ValueError "mode must be either 'fan_in' or 'fan_out'."),
        Ref.start).
Proof.
  assert (H1 : "FAN_IN" <> "fan_in") by discriminate.
  assert (H2 : "FAN_IN" <> "fan_out") by discriminate.
  split; [exact H1 |]. split; [exact H2 |].
  exact (proj2 (kaiming_mode_checked_first (L := host_library) Ref.host_only
                  [8; 3] "FAN_IN" false Ref.start H1 H2)).
Defined.

Lemma Device_repr_wraps_str_witness :
  Device_init Ref.with_cuda "cuda"
  = Ok (mkDevice "cuda" None (Some cupy))
  /\ exists t,
       Device__str__ Ref.with_cuda (mkDevice "cuda" None (Some cupy)) = Ok t
       /\ Device__repr__ Ref.with_cuda (mkDevice "cuda" None (Some cupy))
          = Ok ("device('" ++ t ++ "')").
Proof.
  assert (H : Device_init Ref.with_cuda "cuda"
              = Ok (mkDevice "cuda" None (Some cupy))) by reflexivity.
  split; [exact H |].
  exact (Device_repr_wraps_str Ref.with_cuda _ _ H).
Defined.

Lemma listed_devices_construct_witness :
  cuda_available Ref.with_cuda = true
  /\ get_available_devices Ref.with_cuda (Ok 2)
     = Ok ["cpu"; "cuda:0"; "cuda:1"]
  /\ In "cuda:1" ["cpu"; "cuda:0"; "cuda:1"]
  /\ exists d,
       Device_init Ref.with_cuda "cuda:1" = Ok d
       /\ Device__str__ Ref.with_cuda d = Ok "cuda:1".
Proof.
  assert (Hin : In "cuda:1" ["cpu"; "cuda:0"; "cuda:1"])
    by (right; right; left; reflexivity).
  split; [reflexivity |]. split; [reflexivity |]. split; [exact Hin |].
  exact (listed_devices_construct Ref.with_cuda (Ok 2)
           ["cpu"; "cuda:0"; "cuda:1"] "cuda:1" eq_refl eq_refl Hin).
Defined.
